(** * Readout Confusion Inversion (mitiq/rem/rci.py)

    A shallow embedding of [execute_with_rci], [mitigate_executor] and
    [rci_decorator], together with the numpy and cirq primitives they call,
    and the properties of the correction pipeline.

    Conventions.
    - Floating point numbers are represented by rationals ([Q]); statements
      are about the exact arithmetic the floating point code approximates.
    - A Python exception is a value of [PyError]; a computation that may raise
      returns a [Result].
    - Calls into the outside world (the executor, the calibration sampler,
      the random draw of the state-vector sampler) thread an external state
      and emit an [Event], so that the order of the calls can be observed. *)

From Stdlib Require Import String ZArith QArith List Arith Lia Bool.
Import ListNotations.
Open Scope nat_scope.

Set Implicit Arguments.

(* ================================================================== *)
(** ** Python exceptions and results *)

Inductive PyError : Type :=
| AssertionError
| TypeError (msg : string)
| ValueError (msg : string)
| AttributeError (msg : string)
| IndexError (msg : string).

Inductive Result (A : Type) : Type :=
| Ok (a : A)
| Err (e : PyError).

Arguments Ok {A} a.
Arguments Err {A} e.

Definition is_ok {A} (r : Result A) : bool :=
  match r with Ok _ => true | Err _ => false end.

Definition rbind {A B} (r : Result A) (f : A -> Result B) : Result B :=
  match r with
  | Ok a => f a
  | Err e => Err e
  end.

(** [rmap f l] applies [f] to the elements of [l] from left to right and
    stops at the first exception. *)
Fixpoint rmap {A B} (f : A -> Result B) (l : list A) : Result (list B) :=
  match l with
  | [] => Ok []
  | x :: tl =>
      match f x with
      | Err e => Err e
      | Ok y =>
          match rmap f tl with
          | Err e => Err e
          | Ok ys => Ok (y :: ys)
          end
      end
  end.

(* ================================================================== *)
(** ** numpy: two-dimensional arrays of numbers

    A 2-D array of shape [(length nd_rows, nd_cols)].  The column count is
    kept explicitly so that arrays with no rows keep their shape. *)

Record ndarray : Type := mk_ndarray {
  nd_cols : nat;
  nd_rows : list (list Q)
}.

Definition nd_nrows (a : ndarray) : nat := length (nd_rows a).

Definition nd_shape (a : ndarray) : nat * nat := (nd_nrows a, nd_cols a).

Definition nd_column (j : nat) (a : ndarray) : list Q :=
  map (fun r => nth j r 0%Q) (nd_rows a).

(** [a.T] *)
Definition nd_transpose (a : ndarray) : ndarray :=
  {| nd_cols := nd_nrows a;
     nd_rows := map (fun j => nd_column j a) (seq 0 (nd_cols a)) |}.

Fixpoint dot (u v : list Q) : Q :=
  match u, v with
  | x :: u', y :: v' => (x * y + dot u' v')%Q
  | _, _ => 0%Q
  end.

(** [m @ v] for a 1-D [v]: the matrix applied to a vector. *)
Definition mat_vec (m : ndarray) (v : list Q) : list Q :=
  map (fun r => dot r v) (nd_rows m).

Definition matmul_mismatch : string :=
  "matmul: Input operand 1 has a mismatch in its core dimension 0".

(** [a @ b] for 2-D operands: numpy raises [ValueError] unless the number of
    columns of [a] is the number of rows of [b]. *)
Definition matmul (a b : ndarray) : Result ndarray :=
  if nd_cols a =? nd_nrows b then
    Ok {| nd_cols := nd_cols b;
          nd_rows := map (fun r => map (fun j => dot r (nd_column j b))
                                        (seq 0 (nd_cols b)))
                         (nd_rows a) |}
  else Err (ValueError matmul_mismatch).

Definition apply_along_axis_empty : string :=
  "Cannot apply_along_axis when any iteration dimensions are 0".

(** [np.apply_along_axis(f, 1, arr)] for a 2-D [arr] and an [f] that returns
    a 1-D array of [width] entries: [f] runs on the rows in order, the first
    exception propagates, and an array with no rows is refused. *)
Definition apply_along_axis_rows {A} (f : list A -> Result (list Q))
    (width : nat) (arr : list (list A)) : Result ndarray :=
  match arr with
  | [] => Err (ValueError apply_along_axis_empty)
  | _ => rbind (rmap f arr) (fun vs => Ok {| nd_cols := width; nd_rows := vs |})
  end.

(* ================================================================== *)
(** ** cirq: computational basis states

    cirq orders basis states big-endian: the first qubit is the most
    significant bit of the basis-state index. *)

Definition index_of_bits (bits : list bool) : nat :=
  fold_left (fun acc (b : bool) => 2 * acc + (if b then 1 else 0)) bits 0.

(** Bit of qubit [i] in the basis state [k] of an [m]-qubit register. *)
Definition bit_of_index (m k i : nat) : bool := Nat.testbit k (m - 1 - i).

Definition one_hot (len k : nat) : list Q :=
  map (fun j => if j =? k then 1%Q else 0%Q) (seq 0 len).

(** [to_valid_state_vector(row, num_qubits=n)] on a row of [n] measured bits:
    the one-hot vector of length [2^n] at the big-endian value of the row
    (spec 4.2, per-shot transform).  A row of another length is not a shot
    of the [n]-qubit register (spec 3); it is refused here, and the
    statements about corrected values below are about rows of [n] bits. *)
Definition to_valid_state_vector (n : nat) (row : list bool) : Result (list Q) :=
  if length row =? n then Ok (one_hot (2 ^ n) (index_of_bits row))
  else Err (ValueError "state_like has the wrong shape").

(** The state vectors of a batch of [n]-bit shots. *)
Definition basis_states (n : nat) (rows : list (list bool)) : list (list Q) :=
  map (fun shot => one_hot (2 ^ n) (index_of_bits shot)) rows.

(** [np.identity(n)] *)
Definition identity (n : nat) : ndarray :=
  {| nd_cols := n; nd_rows := map (fun i => one_hot n i) (seq 0 n) |}.

(** The anti-diagonal permutation matrix of size [n]: entry [(i, j)] is one
    when [i + j = n - 1]; on [2^k] basis states it exchanges every bit string
    with its complement. *)
Definition antidiagonal (n : nat) : ndarray :=
  {| nd_cols := n; nd_rows := map (fun i => one_hot n (n - 1 - i)) (seq 0 n) |}.

(* ================================================================== *)
(** ** numpy: arrays of sampled bits and [squeeze] *)

(** Arrays of booleans of dimension 0, 1 and 2. *)
Inductive BitArray : Type :=
| Bits0 (b : bool)
| Bits1 (v : list bool)
| Bits2 (rows : list (list bool)).

(** [a.squeeze()] for an array [a] of shape [(length sampled, 1, k)], whose
    slice [a[s, 0, :]] is [nth s sampled]: every axis of length one is
    removed, not only the middle one. *)
Definition squeeze (k : nat) (sampled : list (list bool)) : BitArray :=
  match length sampled =? 1, k =? 1 with
  | true, true => Bits0 (hd false (hd [] sampled))
  | true, false => Bits1 (hd [] sampled)
  | false, true => Bits1 (map (hd false) sampled)
  | false, false => Bits2 sampled
  end.

(* ================================================================== *)
(** ** mitiq: measurement results *)

(** Modelled from the spec: the class [MeasurementResult] of [mitiq] is not
    part of the sources.  Spec 3: an ordered sequence of shots, each shot a
    fixed-length bit vector over the measured qubit indices, plus the ordered
    qubit indices it corresponds to.  [result] is also what [asarray]
    returns. *)
Record MeasurementResult : Type := mk_MeasurementResult {
  result : list (list bool);
  qubit_indices : list nat
}.

Definition shots (r : MeasurementResult) : nat := length (result r).

Definition not_bit_vectors : string :=
  "the entries of the array are not iterable".

(** Modelled from the spec: the constructor [MeasurementResult(array,
    qubit_indices)].  A sequence of shots is a 2-D array; an array of lower
    dimension is not a sequence of bit vectors (iterating over its entries
    raises [TypeError]). *)
Definition MeasurementResult_init (a : BitArray) (indices : list nat)
  : Result MeasurementResult :=
  match a with
  | Bits2 rows => Ok {| result := rows; qubit_indices := indices |}
  | Bits1 _ => Err (TypeError not_bit_vectors)
  | Bits0 _ => Err (TypeError not_bit_vectors)
  end.

(* ================================================================== *)
(** ** The world outside [rci.py] *)

Section RCI.

(** [QPROGRAM] and its qubits (cirq). *)
Variable Circuit : Type.
Variable Qubit : Type.
Variable all_qubits : Circuit -> list Qubit.

(** State of the backends and of the random generators. *)
Variable Ext : Type.

(** The random draw inside [cirq.sim.sample_state_vector]: one basis-state
    index chosen from the weights of a state vector.  Its renormalisation
    policy is that of cirq and is left open (spec 4.2, 9). *)
Variable draw : list Q -> Ext -> Result nat * Ext.

(** [measure_confusion_matrix(NoisySingleQubitReadoutSampler(p0, p1), groups)]
    and [TensoredConfusionMatrices.correction_matrix()] (cirq). *)
Variable TensoredConfusionMatrices : Type.
Variable measure_confusion_matrix :
  Q -> Q -> list (list Qubit) -> Ext -> Result TensoredConfusionMatrices * Ext.
Variable correction_matrix : TensoredConfusionMatrices -> Result ndarray.

(** [mitiq.Observable] and its [_expectation_from_measurements]. *)
Variable Observable : Type.
Variable expectation_from_measurements :
  Observable -> list MeasurementResult -> Result Q.

(** What a call into the outside world leaves behind. *)
Inductive Event : Type :=
| EvPrint (msg : string)
| EvCalibrate (p0 p1 : Q) (groups : list (list Qubit))
| EvExecute (c : Circuit)
| EvSample (v : list Q) (indices : list nat).

(** Computations: they read and update the external state, may raise, and
    emit events in the order of the calls. *)
Definition M (A : Type) : Type := Ext -> Result A * Ext * list Event.

Definition ret {A} (a : A) : M A := fun s => (Ok a, s, []).

Definition raise {A} (e : PyError) : M A := fun s => (Err e, s, []).

Definition bind {A B} (m : M A) (f : A -> M B) : M B :=
  fun s =>
    match m s with
    | (Err e, s1, t1) => (Err e, s1, t1)
    | (Ok a, s1, t1) =>
        match f a s1 with
        | (r, s2, t2) => (r, s2, t1 ++ t2)
        end
    end.

Definition emit (e : Event) : M unit := fun s => (Ok tt, s, [e]).

Definition lift {A} (r : Result A) : M A := fun s => (r, s, []).

Definition call_ext {A} (f : Ext -> Result A * Ext) : M A :=
  fun s => let (r, s1) := f s in (r, s1, []).

Notation "x <- m ;; k" := (bind m (fun x => k))
  (at level 61, m at next level, right associativity).
Notation "m ;;; k" := (bind m (fun _ => k))
  (at level 61, right associativity).

Fixpoint mapM {A B} (f : A -> M B) (l : list A) : M (list B) :=
  match l with
  | [] => ret []
  | x :: tl => y <- f x ;; ys <- mapM f tl ;; ret (y :: ys)
  end.

Definition outcome {A} (r : Result A * Ext * list Event) : Result A :=
  fst (fst r).
Definition final_state {A} (r : Result A * Ext * list Event) : Ext :=
  snd (fst r).
Definition trace {A} (r : Result A * Ext * list Event) : list Event :=
  snd r.

(** A run that was refused by an assertion before anything was called: the
    reading of "fails before any sampling or computation occurs" (spec 7). *)
Definition refused_before_any_work {A} (r : Result A * Ext * list Event)
  : Prop :=
  outcome r = Err AssertionError /\ trace r = [].

Definition is_sample_event (ev : Event) : Prop :=
  match ev with
  | EvSample _ _ => True
  | _ => False
  end.

(* ------------------------------------------------------------------ *)
(** *** Python values handed around *)

Inductive PyObj : Type :=
| ObjMeasurementResult (r : MeasurementResult)
| ObjFloat (x : Q)
| ObjNone.

(** A callable with the attributes [functools.wraps] looks at.  Every object
    has a [__doc__] ([None] when there is no docstring); [__name__] is absent
    on callables such as [functools.partial] objects. *)
Record PyFunction : Type := mk_PyFunction {
  fn_name : option string;
  fn_doc : option string;
  fn_call : Circuit -> M PyObj
}.

(** Modelled from the spec: the class [Executor] of [mitiq] is not part of
    the sources.  Spec 6: an object exposing "run list of circuits, return
    list of raw measurement results"; it wraps a callable and runs it on each
    circuit in turn. *)
Record Executor : Type := mk_Executor { executor_fn : PyFunction }.

Definition Executor_run (e : Executor) (circuits : list Circuit)
  : M (list PyObj) :=
  mapM (fun c => emit (EvExecute c) ;;; fn_call (executor_fn e) c) circuits.

(** The [executor] argument: [Union[Executor, Callable]]. *)
Inductive ExecutorArg : Type :=
| ArgExecutor (e : Executor)
| ArgCallable (f : PyFunction).

(** [executor if isinstance(executor, Executor) else Executor(executor)] *)
Definition as_Executor (executor : ExecutorArg) : Executor :=
  match executor with
  | ArgExecutor e => e
  | ArgCallable f => mk_Executor f
  end.

(** The [observable] argument as Python passes it: [None], an [Observable],
    or (by misuse of the decorator) a function. *)
Inductive ObservableArg : Type :=
| ObsNone
| ObsObservable (o : Observable)
| ObsCallable (f : PyFunction).

(** [callable(observable)]: an [Observable] has no [__call__]. *)
Definition callable (o : ObservableArg) : bool :=
  match o with
  | ObsCallable _ => true
  | _ => false
  end.

Definition none_has_no_expectation : string :=
  "'NoneType' object has no attribute '_expectation_from_measurements'".

Definition function_has_no_expectation : string :=
  "'function' object has no attribute '_expectation_from_measurements'".

(** [observable._expectation_from_measurements(results)]: the attribute
    exists on an [Observable] only. *)
Definition expectation (o : ObservableArg) (results : list MeasurementResult)
  : M Q :=
  match o with
  | ObsObservable obs => lift (expectation_from_measurements obs results)
  | ObsNone => raise (AttributeError none_has_no_expectation)
  | ObsCallable _ => raise (AttributeError function_has_no_expectation)
  end.

(* ------------------------------------------------------------------ *)
(** *** cirq: sampling a state vector *)

(** [sample_state_vector(v, indices=indices)] with one repetition: the length
    of [v] must be a power of two, [2^m]; [indices] must name qubits of the
    [m]-qubit register; unless [indices] is empty, one basis state is drawn
    and its bits at [indices] are returned, as an array of shape
    [(1, length indices)] whose only row is the list returned here. *)
Definition sample_state_vector (v : list Q) (indices : list nat)
  : M (list bool) :=
  let m := Nat.log2 (length v) in
  emit (EvSample v indices) ;;;
  if negb (length v =? 2 ^ m) then
    raise (ValueError "state_vector size is not a power of two")
  else if negb (forallb (fun i => i <? m) indices) then
    raise (IndexError "Out of range indices")
  else
    match indices with
    | [] => ret []
    | _ => k <- call_ext (draw v) ;; ret (map (bit_of_index m k) indices)
    end.

(* ------------------------------------------------------------------ *)
(** *** rci.py *)

Definition notice : string :=
  "No inverse confusion matrix provided. Generating...".

(** Default value of [p0] and [p1]. *)
Definition default_p : Q := 1 # 100.

Definition print (msg : string) : M unit := emit (EvPrint msg).

(** Lines 79-81: the calibration run against the noisy sampler. *)
Definition calibrate (p0 p1 : Q) (groups : list (list Qubit))
  : M TensoredConfusionMatrices :=
  emit (EvCalibrate p0 p1 groups) ;;;
  call_ext (measure_confusion_matrix p0 p1 groups).

(** [result[0]] *)
Definition getitem0 {A} (l : list A) : M A :=
  match l with
  | x :: _ => ret x
  | [] => raise (IndexError "list index out of range")
  end.

(** [assert isinstance(noisy_result, MeasurementResult)] *)
Definition assert_MeasurementResult (o : PyObj) : M MeasurementResult :=
  match o with
  | ObjMeasurementResult r => ret r
  | _ => raise AssertionError
  end.

(** Lines 88-98, the correction stage: every shot becomes a basis state
    vector, and the batch is multiplied by the inverse confusion matrix. *)
Definition correct (inverse_confusion_matrix : ndarray) (num_qubits : nat)
    (noisy_result : MeasurementResult) : Result ndarray :=
  rbind (apply_along_axis_rows (to_valid_state_vector num_qubits)
                               (2 ^ num_qubits) (result noisy_result))
    (fun noisy_state_vectors =>
  rbind (matmul inverse_confusion_matrix (nd_transpose noisy_state_vectors))
    (fun product =>
  Ok (nd_transpose product))).

(** Lines 104-106 before [squeeze]: [np.apply_along_axis] over the rows of
    the adjusted state vectors; the result has shape
    [(rows, 1, length indices)]. *)
Definition apply_along_axis_sample (indices : list nat) (a : ndarray)
  : M (list (list bool)) :=
  match nd_rows a with
  | [] => raise (ValueError apply_along_axis_empty)
  | rows => mapM (fun v => sample_state_vector v indices) rows
  end.

(** Lines 100-108, resampling: one bit vector is sampled from every adjusted
    state vector and the corrected [MeasurementResult] is built. *)
Definition resample (noisy_result : MeasurementResult)
    (adjusted_state_vectors : ndarray) : M MeasurementResult :=
  sampled <- apply_along_axis_sample (qubit_indices noisy_result)
                                     adjusted_state_vectors ;;
  let adjusted_result :=
    squeeze (length (qubit_indices noisy_result)) sampled in
  lift (MeasurementResult_init adjusted_result (qubit_indices noisy_result)).

(** Lines 88-108, the corrector of spec 4.2: from the noisy result to the
    corrected one. *)
Definition correct_result (inverse_confusion_matrix : ndarray)
    (num_qubits : nat) (noisy_result : MeasurementResult)
  : M MeasurementResult :=
  adjusted_state_vectors <-
    lift (correct inverse_confusion_matrix num_qubits noisy_result) ;;
  resample noisy_result adjusted_state_vectors.

Definition execute_with_rci (circuit : Circuit) (executor : ExecutorArg)
    (observable : ObservableArg) (inverse_confusion_matrix : option ndarray)
    (p0 p1 : Q) : M Q :=
  let executor := as_Executor executor in
  let qubits := all_qubits circuit in
  inverse_confusion_matrix <-
    match inverse_confusion_matrix with
    | None =>
        print notice ;;;
        tensored_matrix <- calibrate p0 p1 (map (fun q => [q]) qubits) ;;
        lift (correction_matrix tensored_matrix)
    | Some m => ret m
    end ;;
  result <- Executor_run executor [circuit] ;;
  noisy_result <- getitem0 result ;;
  noisy_result <- assert_MeasurementResult noisy_result ;;
  result <- correct_result inverse_confusion_matrix (length qubits)
                           noisy_result ;;
  expectation observable [result].

(** Modelled from the spec: [mitiq.raw.execute], used by the tests for the
    unmitigated value, is not part of the sources.  Spec 8: the expectation
    value computed from the raw measurement result of the executor. *)
Definition raw_execute (circuit : Circuit) (executor : ExecutorArg)
    (observable : ObservableArg) : M Q :=
  let executor := as_Executor executor in
  result <- Executor_run executor [circuit] ;;
  noisy_result <- getitem0 result ;;
  noisy_result <- assert_MeasurementResult noisy_result ;;
  expectation observable [noisy_result].

(** [functools.wraps(wrapped)(wrapper)]: the attributes of [wrapped] that
    exist are copied onto [wrapper]; the body stays that of [wrapper]. *)
Definition wraps (wrapped wrapper : PyFunction) : PyFunction :=
  {| fn_name := match fn_name wrapped with
                | Some s => Some s
                | None => fn_name wrapper
                end;
     fn_doc := fn_doc wrapped;
     fn_call := fn_call wrapper |}.

Definition mitigate_executor (executor : PyFunction)
    (observable : ObservableArg) (inverse_confusion_matrix : option ndarray)
    (p0 p1 : Q) : PyFunction :=
  let new_executor :=
    {| fn_name := Some "new_executor"%string;
       fn_doc := None;
       fn_call := fun qp =>
         x <- execute_with_rci qp (ArgCallable executor) observable
                               inverse_confusion_matrix p0 p1 ;;
         ret (ObjFloat x) |} in
  wraps executor new_executor.

Definition decorator_misuse : string :=
  "Decorator must be used with parentheses (i.e., @rci_decorator()) even if no explicit arguments are passed.".

Definition rci_decorator (observable : ObservableArg)
    (inverse_confusion_matrix : option ndarray) (p0 p1 : Q)
  : Result (PyFunction -> PyFunction) :=
  if callable observable then Err (TypeError decorator_misuse)
  else
    let decorator := fun executor =>
      mitigate_executor executor observable inverse_confusion_matrix p0 p1 in
    Ok decorator.

End RCI.

Arguments ret {Circuit Qubit Ext A} a _.
Arguments raise {Circuit Qubit Ext A} e _.
Arguments lift {Circuit Qubit Ext A} r _.
Arguments call_ext {Circuit Qubit Ext A} f _.
Arguments getitem0 {Circuit Qubit Ext A} l _.
Arguments assert_MeasurementResult {Circuit Qubit Ext} o _.
Arguments print {Circuit Qubit Ext} msg _.
Arguments calibrate {Circuit Qubit Ext TensoredConfusionMatrices}
  measure_confusion_matrix p0 p1 groups _.
Arguments sample_state_vector {Circuit Qubit Ext} draw v indices _.
Arguments apply_along_axis_sample {Circuit Qubit Ext} draw indices a _.
Arguments resample {Circuit Qubit Ext} draw noisy_result
  adjusted_state_vectors _.
Arguments correct_result {Circuit Qubit Ext} draw inverse_confusion_matrix
  num_qubits noisy_result _.
Arguments refused_before_any_work {Circuit Qubit Ext A} r.
Arguments is_sample_event {Circuit Qubit} ev.
Arguments EvPrint {Circuit Qubit} msg.
Arguments EvCalibrate {Circuit Qubit} p0 p1 groups.
Arguments EvExecute {Circuit Qubit} c.
Arguments EvSample {Circuit Qubit} v indices.
Arguments ObsNone {Circuit Qubit Ext Observable}.
Arguments ObsObservable {Circuit Qubit Ext Observable} o.
Arguments ObsCallable {Circuit Qubit Ext Observable} f.

(* ================================================================== *)
(** ** A concrete backend, after tests/test_rem.py

    Circuits prepare a computational basis state on line qubits [0..n-1]
    (the test circuit applies [X] to each qubit) and measure every qubit;
    executors return a fixed number of shots; the state of the outside world
    counts the calls made to the backends. *)

Module TestRem.

(** A circuit is given by the bit it prepares on each line qubit. *)
Definition Circuit : Type := list bool.

Definition all_qubits (c : Circuit) : list nat := seq 0 (length c).

(** Default circuit of the tests: [X] on both qubits of a 2-qubit register. *)
Definition circ : Circuit := [true; true].

(** The same on a single qubit. *)
Definition circ1 : Circuit := [true].

Fixpoint first_nonzero (v : list Q) (i : nat) : option nat :=
  match v with
  | [] => None
  | x :: tl => if Qeq_bool x 0 then first_nonzero tl (S i) else Some i
  end.

(** A deterministic stand-in for the random draw: the first basis state of
    non-zero weight.  On a basis state vector it is the only possible draw. *)
Definition draw (v : list Q) (s : nat) : Result nat * nat :=
  match first_nonzero v 0 with
  | Some k => (Ok k, S s)
  | None => (Err (ValueError "probabilities do not sum to 1"), s)
  end.

(** A calibration backend that observes no confusion: it reports the number
    of qubit groups, and the correction matrix is the identity. *)
Definition measure_confusion_matrix (p0 p1 : Q) (groups : list (list nat))
    (s : nat) : Result nat * nat :=
  (Ok (length groups), S s).

Definition correction_matrix (groups : nat) : Result ndarray :=
  Ok (identity (2 ^ groups)).

(** Modelled from the spec: [mitiq.Observable] is not part of the sources.
    Spec 3 and glossary: a sum of Pauli strings whose expectation value is the
    average of the eigenvalues over the shots.  A string of [Z] and [I] is
    given by its support; its eigenvalue on a shot is [-1] to the parity of
    the bits on the support. *)
Definition Observable : Type := list (list bool).

Definition parity (support shot : list bool) : bool :=
  fold_left xorb (map (fun p => andb (fst p) (snd p)) (combine support shot))
            false.

Definition eigenvalue (support shot : list bool) : Q :=
  if parity support shot then (-1)%Q else 1%Q.

Definition Qsum (l : list Q) : Q := fold_right Qplus 0%Q l.

Definition pauli_expectation (r : MeasurementResult) (support : list bool) : Q :=
  (Qsum (map (eigenvalue support) (result r))
   / inject_Z (Z.of_nat (length (result r))))%Q.

Definition expectation_from_measurements (o : Observable)
    (results : list MeasurementResult) : Result Q :=
  match results with
  | [r] => Ok (Qred (Qsum (map (pauli_expectation r) o)))
  | _ => Err (ValueError "one measurement result per group of Pauli strings")
  end.

(** [Observable(PauliString("ZI"), PauliString("IZ"))] *)
Definition observable : Observable := [[true; false]; [false; true]].

(** [Observable(PauliString("Z"))] *)
Definition observable1 : Observable := [[true]].

Definition PyFunction : Type := PyFunction Circuit nat nat.

(** [partial(sample_bitstrings, noise_level=(0,))]: a noiseless executor
    returning [n_shots] shots.  A [partial] object has no [__name__]. *)
Definition sample_bitstrings (n_shots : nat) : PyFunction :=
  {| fn_name := None;
     fn_doc := Some "partial(func, *args, **keywords)"%string;
     fn_call := fun c s =>
       (Ok (ObjMeasurementResult
              {| result := repeat c n_shots;
                 qubit_indices := seq 0 (length c) |}),
        S s, []) |}.

(** [partial(noisy_readout_executor, p0=1, p1=1)]: every measured bit is
    flipped. *)
Definition noisy_readout_executor (n_shots : nat) : PyFunction :=
  {| fn_name := None;
     fn_doc := Some "partial(func, *args, **keywords)"%string;
     fn_call := fun c s =>
       (Ok (ObjMeasurementResult
              {| result := repeat (map negb c) n_shots;
                 qubit_indices := seq 0 (length c) |}),
        S s, []) |}.

(** The number of shots the executors of the tests take by default, 8192. *)
Definition default_shots : nat := 2 ^ 13.

(** [first_executor] of [test_doc_is_preserved]: it returns [0]. *)
Definition first_executor : PyFunction :=
  {| fn_name := Some "first_executor"%string;
     fn_doc := Some "Doc of the original executor."%string;
     fn_call := fun c s => (Ok (ObjFloat 0), s, []) |}.

(** A calibration whose confusion matrix cannot be inverted
    ([numpy.linalg.LinAlgError] is a [ValueError]). *)
Definition singular_correction_matrix (groups : nat) : Result ndarray :=
  Err (ValueError "Singular matrix").

(** [execute_with_rci] against that calibration. *)
Definition execute_with_rci_singular :=
  execute_with_rci all_qubits draw measure_confusion_matrix
    singular_correction_matrix expectation_from_measurements.

Definition execute_with_rci :=
  execute_with_rci all_qubits draw measure_confusion_matrix
    correction_matrix expectation_from_measurements.

Definition raw_execute :=
  raw_execute (Circuit := Circuit) (Qubit := nat) (Ext := nat)
    expectation_from_measurements.

Definition correct_result :=
  correct_result (Circuit := Circuit) (Qubit := nat) draw.

Definition mitigate_executor :=
  mitigate_executor all_qubits draw measure_confusion_matrix
    correction_matrix expectation_from_measurements.

Definition rci_decorator :=
  rci_decorator all_qubits draw measure_confusion_matrix
    correction_matrix expectation_from_measurements.

(** A matrix with negative entries whose columns do not sum to one. *)
Definition two_by_two : ndarray :=
  {| nd_cols := 2; nd_rows := [[2; -1]; [-1; 3]]%Q |}.

(** Two shots of one qubit. *)
Definition one_and_zero : MeasurementResult :=
  {| result := [[true]; [false]]; qubit_indices := [0] |}.

(** Two shots of the 2-qubit register, all zero and all one. *)
Definition all_zero : MeasurementResult :=
  {| result := [[false; false]; [false; false]]; qubit_indices := [0; 1] |}.

Definition all_one : MeasurementResult :=
  {| result := [[true; true]; [true; true]]; qubit_indices := [0; 1] |}.

(** An 8x4 matrix: two identity blocks, one above the other. *)
Definition tall : ndarray :=
  {| nd_cols := 4; nd_rows := nd_rows (identity 4) ++ nd_rows (identity 4) |}.

(** An executor whose backend raises. *)
Definition failing_executor : PyFunction :=
  {| fn_name := Some "failing_executor"%string;
     fn_doc := None;
     fn_call := fun c s => (Err (ValueError "backend unavailable"), s, []) |}.

(** A noiseless executor for the same circuit laid out on the line qubits
    [1 .. n]: the qubit indices of its result start at one. *)
Definition shifted_executor (n_shots : nat) : PyFunction :=
  {| fn_name := Some "shifted_executor"%string;
     fn_doc := None;
     fn_call := fun c s =>
       (Ok (ObjMeasurementResult
              {| result := repeat c n_shots;
                 qubit_indices := seq 1 (length c) |}),
        S s, []) |}.

(** A 3x4 matrix. *)
Definition three_by_four : ndarray :=
  {| nd_cols := 4;
     nd_rows := [[1; 0; 0; 0]; [0; 1; 0; 0]; [0; 0; 1; 1]]%Q |}.

(** The matrix that exchanges the basis states [01] and [10] of two qubits,
    and the permutation of the basis states it performs. *)
Definition exchange : ndarray :=
  {| nd_cols := 4;
     nd_rows := [[1; 0; 0; 0]; [0; 0; 1; 0]; [0; 1; 0; 0]; [0; 0; 0; 1]]%Q |}.

Definition exchange_perm (k : nat) : nat :=
  match k with
  | 1 => 2
  | 2 => 1
  | _ => k
  end.

(** Two shots of the 2-qubit register, [01] and [10], and the same
    exchanged. *)
Definition zero_one : MeasurementResult :=
  {| result := [[false; true]; [true; false]]; qubit_indices := [0; 1] |}.

Definition one_zero : MeasurementResult :=
  {| result := [[true; false]; [false; true]]; qubit_indices := [0; 1] |}.

End TestRem.

(* ================================================================== *)
(** * Properties *)

(** ** Results and lists *)

Lemma rmap_ok_map {A B} (f : A -> Result B) (g : A -> B) (l : list A) :
  Forall (fun x => f x = Ok (g x)) l -> rmap f l = Ok (map g l).
Proof.
  induction 1 as [|x tl Hx _ IH]; simpl.
  - reflexivity.
  - rewrite Hx, IH. reflexivity.
Qed.

Lemma rmap_length {A B} (f : A -> Result B) (l : list A) (ys : list B) :
  rmap f l = Ok ys -> length ys = length l.
Proof.
  revert ys. induction l as [|x tl IH]; simpl; intros ys H.
  - inversion H. reflexivity.
  - destruct (f x); [|discriminate].
    destruct (rmap f tl) as [zs|]; [|discriminate].
    inversion H. simpl. f_equal. apply IH. reflexivity.
Qed.

Lemma map_nth_seq {A B} (f : A -> B) (d : A) (l : list A) :
  map (fun i => f (nth i l d)) (seq 0 (length l)) = map f l.
Proof.
  induction l as [|x tl IH]; simpl.
  - reflexivity.
  - f_equal. rewrite <- seq_shift, map_map. exact IH.
Qed.

Lemma nth_map_seq {B} (g : nat -> B) (d : B) (n s : nat) :
  s < n -> nth s (map g (seq 0 n)) d = g s.
Proof.
  intros Hs.
  rewrite (nth_indep _ d (g 0)) by (rewrite length_map, length_seq; exact Hs).
  rewrite (map_nth g (seq 0 n) 0 s).
  rewrite seq_nth by exact Hs. reflexivity.
Qed.

(** A list of the right length is the list of its entries. *)
Lemma map_nth_self (d : Q) (l : list Q) :
  map (fun j => nth j l d) (seq 0 (length l)) = l.
Proof.
  rewrite (map_nth_seq (fun x => x) d l). apply map_id.
Qed.

(* ------------------------------------------------------------------ *)
(** ** The correction stage *)

Lemma one_hot_length (len k : nat) : length (one_hot len k) = len.
Proof. unfold one_hot. rewrite length_map, length_seq. reflexivity. Qed.

Lemma to_valid_state_vector_ok (n : nat) (row : list bool) :
  length row = n ->
  to_valid_state_vector n row = Ok (one_hot (2 ^ n) (index_of_bits row)).
Proof.
  intros H. unfold to_valid_state_vector.
  rewrite (proj2 (Nat.eqb_eq _ _) H). reflexivity.
Qed.

Lemma noisy_state_vectors_ok (n : nat) (rows : list (list bool)) :
  rows <> [] ->
  Forall (fun shot => length shot = n) rows ->
  apply_along_axis_rows (to_valid_state_vector n) (2 ^ n) rows
  = Ok {| nd_cols := 2 ^ n; nd_rows := basis_states n rows |}.
Proof.
  intros Hne Hlen. unfold apply_along_axis_rows, basis_states.
  destruct rows as [|r tl]; [congruence|].
  rewrite (rmap_ok_map (to_valid_state_vector n)
             (fun shot => one_hot (2 ^ n) (index_of_bits shot))).
  - reflexivity.
  - eapply Forall_impl; [|exact Hlen].
    intros shot Hshot. apply to_valid_state_vector_ok. exact Hshot.
Qed.

(** Column [s] of [v.T] is row [s] of [v] when the rows of [v] have
    [nd_cols v] entries. *)
Lemma column_transpose (v : ndarray) (s : nat) :
  Forall (fun r => length r = nd_cols v) (nd_rows v) ->
  s < nd_nrows v ->
  nd_column s (nd_transpose v) = nth s (nd_rows v) [].
Proof.
  intros Hwf Hs. unfold nd_column, nd_transpose. simpl.
  rewrite map_map.
  assert (Hrow : length (nth s (nd_rows v) []) = nd_cols v).
  { apply (proj1 (Forall_nth _ _) Hwf). exact Hs. }
  rewrite <- Hrow at 1.
  rewrite <- (map_nth_self 0%Q (nth s (nd_rows v) [])) at 2.
  apply map_ext_in. intros j Hj.
  unfold nd_column.
  rewrite (nth_indep _ 0%Q (nth j [] 0%Q))
    by (rewrite length_map; exact Hs).
  rewrite (map_nth (fun r => nth j r 0%Q)). reflexivity.
Qed.

(** The batched product [(m @ v.T).T] applies [m] to every row of [v]. *)
Lemma batched_product (m v : ndarray) :
  Forall (fun r => length r = nd_cols v) (nd_rows v) ->
  nd_cols m = nd_cols v ->
  rbind (matmul m (nd_transpose v)) (fun product => Ok (nd_transpose product))
  = Ok {| nd_cols := nd_nrows m; nd_rows := map (mat_vec m) (nd_rows v) |}.
Proof.
  intros Hwf Hcols. unfold matmul.
  assert (Hn : nd_nrows (nd_transpose v) = nd_cols v).
  { unfold nd_nrows, nd_transpose. simpl.
    rewrite length_map, length_seq. reflexivity. }
  rewrite Hn, (proj2 (Nat.eqb_eq _ _) Hcols). simpl.
  unfold nd_transpose at 1. unfold nd_nrows at 1. simpl.
  rewrite length_map. f_equal. f_equal.
  unfold nd_nrows.
  rewrite <- (map_nth_seq (mat_vec m) [] (nd_rows v)).
  apply map_ext_in. intros s Hs. apply in_seq in Hs.
  unfold nd_column at 1. simpl. rewrite map_map. unfold mat_vec.
  apply map_ext. intros r.
  rewrite nth_map_seq by lia.
  f_equal. apply column_transpose; [exact Hwf|]. unfold nd_nrows. lia.
Qed.

Lemma basis_states_wf (n : nat) (rows : list (list bool)) :
  Forall (fun r => length r = 2 ^ n) (basis_states n rows).
Proof.
  unfold basis_states. apply Forall_forall. intros r Hr.
  apply in_map_iff in Hr. destruct Hr as [shot [<- _]]. apply one_hot_length.
Qed.

Lemma index_of_bits_acc (bits : list bool) (acc : nat) :
  fold_left (fun a (b : bool) => 2 * a + (if b then 1 else 0)) bits acc + 1
  <= (acc + 1) * 2 ^ length bits.
Proof.
  revert acc. induction bits as [|b tl IH]; intros acc.
  - simpl. lia.
  - cbn [fold_left length]. rewrite Nat.pow_succ_r'.
    specialize (IH (2 * acc + (if b then 1 else 0))).
    remember (2 ^ length tl) as p.
    destruct b; nia.
Qed.

(** The value of a row of [n] bits is the index of one of the [2^n] basis
    states. *)
Lemma index_of_bits_lt (bits : list bool) :
  index_of_bits bits < 2 ^ length bits.
Proof.
  unfold index_of_bits. pose proof (index_of_bits_acc bits 0) as H. lia.
Qed.

Lemma one_hot_nth (len k j : nat) :
  j < len -> nth j (one_hot len k) 0%Q = if j =? k then 1%Q else 0%Q.
Proof.
  intros Hj. unfold one_hot.
  apply (nth_map_seq (fun j => if j =? k then 1%Q else 0%Q)). exact Hj.
Qed.

Lemma correct_ok (m : ndarray) (n : nat) (noisy : MeasurementResult) :
  nd_cols m = 2 ^ n ->
  result noisy <> [] ->
  Forall (fun shot => length shot = n) (result noisy) ->
  correct m n noisy
  = Ok {| nd_cols := nd_nrows m;
          nd_rows := map (mat_vec m) (basis_states n (result noisy)) |}.
Proof.
  intros Hcols Hne Hlen. unfold correct.
  rewrite (noisy_state_vectors_ok Hne Hlen). simpl.
  apply (batched_product m
           {| nd_cols := 2 ^ n; nd_rows := basis_states n (result noisy) |}).
  - apply basis_states_wf.
  - exact Hcols.
Qed.

(** The adjusted state vectors come one per shot. *)
Lemma correct_nrows (m : ndarray) (n : nat) (noisy : MeasurementResult)
    (adjusted : ndarray) :
  correct m n noisy = Ok adjusted -> nd_nrows adjusted = shots noisy.
Proof.
  unfold correct, apply_along_axis_rows, shots. intros H.
  destruct (result noisy) as [|r tl] eqn:Hrows; [discriminate|].
  destruct (rmap (to_valid_state_vector n) (r :: tl)) as [vs|] eqn:Hvs;
    [|discriminate].
  simpl in H. unfold matmul in H.
  destruct (nd_cols m =? _); [|discriminate].
  simpl in H. inversion H. unfold nd_nrows. simpl.
  rewrite length_map, length_seq.
  apply (rmap_length _ _ Hvs).
Qed.

(** A matrix whose column count is not [2^n] cannot be multiplied with the
    batch of state vectors. *)
Lemma correct_mismatch (m : ndarray) (n : nat) (noisy : MeasurementResult) :
  nd_cols m <> 2 ^ n ->
  result noisy <> [] ->
  Forall (fun shot => length shot = n) (result noisy) ->
  correct m n noisy = Err (ValueError matmul_mismatch).
Proof.
  intros Hcols Hne Hlen. unfold correct.
  rewrite (noisy_state_vectors_ok Hne Hlen). simpl.
  unfold matmul, nd_nrows, nd_transpose. simpl.
  rewrite length_map, length_seq.
  rewrite (proj2 (Nat.eqb_neq _ _) Hcols). reflexivity.
Qed.

(** X15.  Whenever the correction stage succeeds, the matrix had [2^n]
    columns, and the adjusted state vectors form an array with one row per
    shot and one column per row of the matrix. *)
Theorem correct_shape :
  forall (m : ndarray) (n : nat) (noisy : MeasurementResult)
         (adjusted : ndarray),
    correct m n noisy = Ok adjusted ->
    nd_cols m = 2 ^ n
    /\ nd_shape adjusted = (shots noisy, nd_nrows m)
    /\ Forall (fun v => length v = nd_nrows m) (nd_rows adjusted).
Proof.
  intros m n noisy adjusted H.
  pose proof (correct_nrows _ _ _ H) as Hnrows.
  unfold correct, apply_along_axis_rows in H.
  destruct (result noisy) as [|r tl]; [discriminate|].
  destruct (rmap (to_valid_state_vector n) (r :: tl)) as [vs|]; [|discriminate].
  cbn [rbind] in H. unfold matmul in H.
  destruct (nd_cols m =? _) eqn:Hcols; [|discriminate].
  cbn [rbind] in H. injection H as Hadj.
  apply Nat.eqb_eq in Hcols.
  unfold nd_nrows, nd_transpose in Hcols. cbn [nd_rows nd_cols] in Hcols.
  rewrite length_map, length_seq in Hcols.
  split; [exact Hcols|]. split.
  - unfold nd_shape. rewrite Hnrows. f_equal.
    rewrite <- Hadj. unfold nd_transpose at 1. cbn [nd_cols].
    unfold nd_nrows. cbn [nd_rows]. apply length_map.
  - rewrite <- Hadj. unfold nd_transpose at 1. cbn [nd_rows].
    apply Forall_forall. intros v Hv. apply in_map_iff in Hv.
    destruct Hv as [j [<- _]]. unfold nd_column. cbn [nd_rows].
    rewrite !length_map. reflexivity.
Qed.

(* ------------------------------------------------------------------ *)
(** ** Permutation matrices on basis states *)

Ltac decide_tests :=
  repeat match goal with
         | |- context [?x =? ?y] => destruct (Nat.eqb_spec x y)
         | |- context [?x <=? ?y] => destruct (Nat.leb_spec x y)
         | |- context [?x <? ?y] => destruct (Nat.ltb_spec x y)
         end.

Lemma dot_one_hot_seq (a len i k : nat) :
  dot (map (fun j => if j =? i then 1%Q else 0%Q) (seq a len))
      (map (fun j => if j =? k then 1%Q else 0%Q) (seq a len))
  = if (i =? k) && (a <=? i) && (i <? a + len) then 1%Q else 0%Q.
Proof.
  revert a. induction len as [|len IH]; intros a.
  - simpl. decide_tests; simpl; try reflexivity; exfalso; lia.
  - cbn [seq map dot]. rewrite IH.
    decide_tests; simpl; try reflexivity; exfalso; lia.
Qed.

Lemma dot_one_hot (len i k : nat) :
  i < len ->
  dot (one_hot len i) (one_hot len k) = if i =? k then 1%Q else 0%Q.
Proof.
  intros Hi. unfold one_hot. rewrite dot_one_hot_seq.
  decide_tests; simpl; try reflexivity; exfalso; lia.
Qed.

(** The identity matrix leaves a basis state vector as it is. *)
Lemma identity_one_hot (len k : nat) :
  mat_vec (identity len) (one_hot len k) = one_hot len k.
Proof.
  unfold mat_vec, identity. simpl. rewrite map_map.
  unfold one_hot at 3. apply map_ext_in. intros i Hi. apply in_seq in Hi.
  apply dot_one_hot. lia.
Qed.

(** The anti-diagonal matrix sends basis state [k] to [len - 1 - k]. *)
Lemma antidiagonal_one_hot (len k : nat) :
  k < len ->
  mat_vec (antidiagonal len) (one_hot len k) = one_hot len (len - 1 - k).
Proof.
  intros Hk. unfold mat_vec, antidiagonal. simpl. rewrite map_map.
  unfold one_hot at 3. apply map_ext_in. intros i Hi. apply in_seq in Hi.
  rewrite dot_one_hot by lia.
  decide_tests; try reflexivity; exfalso; lia.
Qed.

(* ------------------------------------------------------------------ *)
(** ** Bits and basis-state indices *)

Lemma index_of_bits_app (bits : list bool) (b : bool) :
  index_of_bits (bits ++ [b])
  = 2 * index_of_bits bits + (if b then 1 else 0).
Proof. unfold index_of_bits. rewrite fold_left_app. reflexivity. Qed.

Lemma testbit_low (k : nat) (b : bool) :
  Nat.testbit (2 * k + (if b then 1 else 0)) 0 = b.
Proof.
  destruct b.
  - apply (Nat.testbit_odd_0 k).
  - rewrite Nat.add_0_r. apply Nat.testbit_even_0.
Qed.

Lemma testbit_high (k j : nat) (b : bool) :
  Nat.testbit (2 * k + (if b then 1 else 0)) (S j) = Nat.testbit k j.
Proof.
  destruct b.
  - apply (Nat.testbit_odd_succ k j). lia.
  - rewrite Nat.add_0_r. apply Nat.testbit_even_succ. lia.
Qed.

Lemma bit_of_index_of_bits (bits : list bool) (i : nat) :
  i < length bits ->
  bit_of_index (length bits) (index_of_bits bits) i = nth i bits false.
Proof.
  revert i. induction bits as [|b bits IH] using rev_ind; intros i Hi.
  - simpl in Hi. lia.
  - rewrite length_app in *. simpl in Hi. simpl length.
    rewrite index_of_bits_app. unfold bit_of_index.
    destruct (Nat.eq_dec i (length bits)) as [->|Hne].
    + replace (length bits + 1 - 1 - length bits) with 0 by lia.
      rewrite testbit_low, nth_middle. reflexivity.
    + replace (length bits + 1 - 1 - i) with (S (length bits - 1 - i)) by lia.
      rewrite testbit_high, app_nth1 by lia.
      apply IH. lia.
Qed.

(** Reading the bits of the value of a row gives the row back. *)
Lemma bits_of_index_of_bits (bits : list bool) :
  map (bit_of_index (length bits) (index_of_bits bits))
      (seq 0 (length bits))
  = bits.
Proof.
  transitivity (map (fun i => nth i bits false) (seq 0 (length bits))).
  - apply map_ext_in. intros i Hi. apply in_seq in Hi.
    apply bit_of_index_of_bits. lia.
  - rewrite (map_nth_seq (fun b : bool => b) false bits). apply map_id.
Qed.

(** Flipping every bit of a row of [n] bits turns its value [k] into
    [2^n - 1 - k]. *)
Lemma index_of_bits_negb (bits : list bool) :
  index_of_bits (map negb bits)
  = 2 ^ length bits - 1 - index_of_bits bits.
Proof.
  induction bits as [|b bits IH] using rev_ind.
  - reflexivity.
  - rewrite map_app, length_app. simpl map. simpl length.
    rewrite !index_of_bits_app, IH.
    replace (length bits + 1) with (S (length bits)) by lia.
    rewrite Nat.pow_succ_r'.
    pose proof (index_of_bits_lt bits) as Hlt.
    remember (2 ^ length bits) as p. remember (index_of_bits bits) as k.
    destruct b; simpl negb; cbv iota; lia.
Qed.

(* ------------------------------------------------------------------ *)
(** ** Computations *)

Section Properties.

Variables Circuit Qubit : Type.
Variable all_qubits : Circuit -> list Qubit.
Variable Ext : Type.
Variable draw : list Q -> Ext -> Result nat * Ext.
Variable TensoredConfusionMatrices : Type.
Variable measure_confusion_matrix :
  Q -> Q -> list (list Qubit) -> Ext -> Result TensoredConfusionMatrices * Ext.
Variable correction_matrix : TensoredConfusionMatrices -> Result ndarray.
Variable Observable : Type.
Variable expectation_from_measurements :
  Observable -> list MeasurementResult -> Result Q.

Local Abbreviation M := (M Circuit Qubit Ext).
Local Abbreviation PyFunction := (PyFunction Circuit Qubit Ext).
Local Abbreviation ExecutorArg := (ExecutorArg Circuit Qubit Ext).
Local Abbreviation ObservableArg := (ObservableArg Circuit Qubit Ext Observable).
Local Abbreviation rci :=
  (execute_with_rci all_qubits draw measure_confusion_matrix
     correction_matrix expectation_from_measurements).
Local Abbreviation raw :=
  (raw_execute (Circuit := Circuit) (Qubit := Qubit) (Ext := Ext)
     expectation_from_measurements).
Local Abbreviation mitigated :=
  (mitigate_executor all_qubits draw measure_confusion_matrix
     correction_matrix expectation_from_measurements).
Local Abbreviation decorate :=
  (rci_decorator all_qubits draw measure_confusion_matrix
     correction_matrix expectation_from_measurements).
Local Abbreviation corrector :=
  (correct_result (Circuit := Circuit) (Qubit := Qubit) draw).
Local Abbreviation sample :=
  (sample_state_vector (Circuit := Circuit) (Qubit := Qubit) draw).
Local Abbreviation evaluate :=
  (expectation (Circuit := Circuit) (Qubit := Qubit) (Ext := Ext)
     expectation_from_measurements).

(** A computation that ends in a step that always raises always raises. *)
Lemma bind_fails {A B} (m : M A) (f : A -> M B) s :
  (forall a s1, is_ok (outcome (f a s1)) = false) ->
  is_ok (outcome (bind m f s)) = false.
Proof.
  intros Hf. unfold bind.
  destruct (m s) as [[[a|e] s1] t1]; [|reflexivity].
  specialize (Hf a s1). destruct (f a s1) as [[r s2] t2]. exact Hf.
Qed.

Lemma bind_run {A B} (m : M A) (f : A -> M B) s :
  bind m f s
  = match m s with
    | (Ok a, s1, t1) =>
        (outcome (f a s1), final_state (f a s1), t1 ++ trace (f a s1))
    | (Err e, s1, t1) => (Err e, s1, t1)
    end.
Proof.
  unfold bind. destruct (m s) as [[[a|e] s1] t1]; [|reflexivity].
  destruct (f a s1) as [[r s2] t2]. reflexivity.
Qed.

Lemma trace_bind {A B} (m : M A) (f : A -> M B) s :
  trace (bind m f s)
  = trace (m s) ++ match outcome (m s) with
                   | Ok a => trace (f a (final_state (m s)))
                   | Err _ => []
                   end.
Proof.
  unfold bind, trace, outcome, final_state.
  destruct (m s) as [[[a|e] s1] t1]; simpl.
  - destruct (f a s1) as [[r s2] t2]. reflexivity.
  - rewrite app_nil_r. reflexivity.
Qed.

Lemma mapM_length {A B} (f : A -> M B) (l : list A) s ys s1 t1 :
  mapM f l s = (Ok ys, s1, t1) -> length ys = length l.
Proof.
  revert s ys s1 t1. induction l as [|x tl IH]; simpl; intros s ys s1 t1 H.
  - inversion H. reflexivity.
  - unfold bind in H.
    destruct (f x s) as [[[y|e] s2] t2]; [|discriminate].
    destruct (mapM f tl s2) as [[[zs|e] s3] t3] eqn:Htl; [|discriminate].
    inversion H. simpl. f_equal. apply (IH _ _ _ _ Htl).
Qed.

Lemma Executor_run_single (e : Executor Circuit Qubit Ext) (c : Circuit) s :
  Executor_run e [c] s
  = match fn_call (executor_fn e) c s with
    | (Ok y, s1, t1) => (Ok [y], s1, EvExecute c :: t1)
    | (Err err, s1, t1) => (Err err, s1, EvExecute c :: t1)
    end.
Proof.
  unfold Executor_run, mapM, bind, emit, ret.
  destruct (fn_call (executor_fn e) c s) as [[[y|err] s1] t1]; simpl.
  - rewrite !app_nil_r. reflexivity.
  - reflexivity.
Qed.

(** Unfolding of [execute_with_rci] when a matrix is supplied and the
    executor returns a measurement result. *)
Lemma execute_with_rci_supplied (c : Circuit) (e : ExecutorArg)
    (o : ObservableArg) (m : ndarray) (p0 p1 : Q) s noisy s1 t1 :
  fn_call (executor_fn (as_Executor e)) c s
  = (Ok (ObjMeasurementResult noisy), s1, t1) ->
  rci c e o (Some m) p0 p1 s
  = match corrector m (length (all_qubits c)) noisy s1 with
    | (Ok res, s2, t2) =>
        (outcome (evaluate o [res] s2), s2, EvExecute c :: t1 ++ t2)
    | (Err err, s2, t2) => (Err err, s2, EvExecute c :: t1 ++ t2)
    end.
Proof.
  intros H. unfold execute_with_rci.
  unfold bind at 1. unfold ret at 1.
  unfold bind at 1. rewrite Executor_run_single, H.
  unfold bind at 1. unfold getitem0, ret at 1.
  unfold bind at 1. unfold assert_MeasurementResult, ret at 1.
  unfold bind at 1.
  destruct (corrector m (length (all_qubits c)) noisy s1)
    as [[[res|err] s2] t2]; simpl.
  - unfold expectation, lift, raise.
    destruct o; simpl; rewrite ?app_nil_r; reflexivity.
  - rewrite ?app_nil_r. reflexivity.
Qed.

(* ------------------------------------------------------------------ *)
(** ** Dimension of the inverse confusion matrix *)


(* ------------------------------------------------------------------ *)
(** ** The per-shot transform *)

(** C2.  For a noisy result with at least one shot, all of [n] bits, and an
    inverse confusion matrix with [2^n] columns and any entries: every shot
    becomes the one-hot vector of length [2^n] at the value of its bits read
    as a binary number, which is below [2^n]; the adjusted state vectors are
    the matrix applied to each of these vectors, in the order of the shots
    (the batched product [(m @ v.T).T] computes exactly that); and these are
    the vectors the corrector goes on to resample.  No condition on the sign
    or the sum of the entries is involved. *)
Theorem correct_applies_matrix_to_each_shot :
  forall (m : ndarray) (n : nat) (noisy : MeasurementResult),
    nd_cols m = 2 ^ n ->
    result noisy <> [] ->
    Forall (fun shot => length shot = n) (result noisy) ->
    apply_along_axis_rows (to_valid_state_vector n) (2 ^ n) (result noisy)
    = Ok {| nd_cols := 2 ^ n;
            nd_rows := map (fun shot => one_hot (2 ^ n) (index_of_bits shot))
                           (result noisy) |}
    /\ Forall (fun shot => index_of_bits shot < 2 ^ n) (result noisy)
    /\ correct m n noisy
       = Ok {| nd_cols := nd_nrows m;
               nd_rows :=
                 map (fun shot =>
                        mat_vec m (one_hot (2 ^ n) (index_of_bits shot)))
                     (result noisy) |}
    /\ forall s : Ext,
         corrector m n noisy s
         = resample (Circuit := Circuit) (Qubit := Qubit) draw noisy
             {| nd_cols := nd_nrows m;
                nd_rows :=
                  map (fun shot =>
                         mat_vec m (one_hot (2 ^ n) (index_of_bits shot)))
                      (result noisy) |} s.
Proof.
  intros m n noisy Hcols Hne Hlen.
  assert (Hcorrect :
    correct m n noisy
    = Ok {| nd_cols := nd_nrows m;
            nd_rows :=
              map (fun shot =>
                     mat_vec m (one_hot (2 ^ n) (index_of_bits shot)))
                  (result noisy) |}).
  { rewrite (@correct_ok m n noisy Hcols Hne Hlen). unfold basis_states.
    rewrite map_map. reflexivity. }
  split; [|split; [|split]].
  - apply (noisy_state_vectors_ok Hne Hlen).
  - eapply Forall_impl; [|exact Hlen].
    intros shot Hshot. cbv beta in Hshot. rewrite <- Hshot.
    apply index_of_bits_lt.
  - exact Hcorrect.
  - intros s. unfold correct_result, bind, lift. rewrite Hcorrect.
    destruct (resample draw noisy _ s) as [[r s1] t1]. reflexivity.
Qed.

(* ------------------------------------------------------------------ *)
(** ** The corrected result *)

Lemma apply_along_axis_sample_length (indices : list nat) (a : ndarray)
    s sampled s1 t1 :
  apply_along_axis_sample draw indices a s
  = (Ok sampled, s1, t1 : list (Event Circuit Qubit)) ->
  length sampled = nd_nrows a.
Proof.
  unfold apply_along_axis_sample, nd_nrows.
  destruct (nd_rows a) as [|v tl]; [discriminate|].
  apply mapM_length.
Qed.

Lemma MeasurementResult_init_ok (a : BitArray) (indices : list nat)
    (res : MeasurementResult) :
  MeasurementResult_init a indices = Ok res ->
  a = Bits2 (result res) /\ qubit_indices res = indices.
Proof.
  destruct a; simpl; intros H; inversion H. simpl. split; reflexivity.
Qed.

Lemma squeeze_2d (k : nat) (sampled rows : list (list bool)) :
  squeeze k sampled = Bits2 rows ->
  rows = sampled /\ length sampled <> 1 /\ k <> 1.
Proof.
  unfold squeeze.
  destruct (length sampled =? 1) eqn:Hs, (k =? 1) eqn:Hk;
    intros H; inversion H.
  apply Nat.eqb_neq in Hs, Hk. subst. repeat split; auto.
Qed.

(** C8.  Whenever the corrector succeeds, the corrected result carries the
    qubit indices of the noisy result, in the same order, and has one bit
    vector per shot of the noisy result. *)
Theorem corrected_result_keeps_indices_and_shots :
  forall (m : ndarray) (n : nat) (noisy res : MeasurementResult)
         (s s1 : Ext) (t1 : list (Event Circuit Qubit)),
    corrector m n noisy s = (Ok res, s1, t1) ->
    qubit_indices res = qubit_indices noisy /\ shots res = shots noisy.
Proof.
  intros m n noisy res s s1 t1 H.
  unfold correct_result, bind, lift in H.
  destruct (correct m n noisy) as [adjusted|] eqn:Hadj; [|discriminate].
  unfold resample, bind, lift in H.
  destruct (apply_along_axis_sample draw (qubit_indices noisy) adjusted s)
    as [[[sampled|] s2] t2] eqn:Hsampled; [|discriminate].
  destruct (MeasurementResult_init _ _) as [res'|] eqn:Hinit; [|discriminate].
  inversion H; subst res'.
  apply MeasurementResult_init_ok in Hinit. destruct Hinit as [Hsq Hidx].
  apply squeeze_2d in Hsq. destruct Hsq as [Hrows _].
  split; [exact Hidx|].
  unfold shots. rewrite Hrows.
  rewrite (apply_along_axis_sample_length _ _ _ Hsampled).
  apply (correct_nrows _ _ _ Hadj).
Qed.

(* ------------------------------------------------------------------ *)
(** ** The decorator and the wrapped executor *)

(** C5.  [rci_decorator] called with a function as its first positional
    argument, which is what [@rci_decorator] without parentheses does, raises
    [TypeError] with the message asking for the parentheses.  It raises when
    the decorator is built: [rci_decorator] runs no computation of [M], so
    nothing is executed; and it raises for callable first arguments only. *)
Theorem rci_decorator_rejects_callable :
  forall (f : PyFunction) (icm : option ndarray) (p0 p1 : Q),
    decorate (ObsCallable f) icm p0 p1 = Err (TypeError decorator_misuse)
    /\ forall o : ObservableArg,
         is_ok (decorate o icm p0 p1) = negb (callable o).
Proof.
  intros f icm p0 p1. split.
  - reflexivity.
  - intros o. unfold rci_decorator. destruct (callable o); reflexivity.
Qed.

(** C6.  The executor returned by [mitigate_executor] has the documentation
    string of the original executor, and its name whenever the original has
    one (every function does; a callable without [__name__] leaves the name
    of the wrapper in place).  The same holds for the executor produced by a
    decorator that [rci_decorator] returned. *)
Theorem mitigate_executor_preserves_metadata :
  forall (executor : PyFunction) (o : ObservableArg) (icm : option ndarray)
         (p0 p1 : Q),
    fn_doc (mitigated executor o icm p0 p1) = fn_doc executor
    /\ fn_name (mitigated executor o icm p0 p1)
       = match fn_name executor with
         | Some name => Some name
         | None => Some "new_executor"%string
         end
    /\ match decorate o icm p0 p1 with
       | Ok decorator =>
           fn_doc (decorator executor) = fn_doc executor
           /\ fn_name (decorator executor)
              = match fn_name executor with
                | Some name => Some name
                | None => Some "new_executor"%string
                end
       | Err _ => callable o = true
       end.
Proof.
  intros executor o icm p0 p1. unfold rci_decorator, mitigate_executor, wraps.
  destruct (callable o); simpl; auto.
Qed.

(* ------------------------------------------------------------------ *)
(** ** The calibration stage *)

Lemma sample_trace (v : list Q) (indices : list nat) (s : Ext) :
  trace (sample v indices s) = [EvSample v indices].
Proof.
  unfold sample_state_vector. rewrite trace_bind.
  cbn [emit trace outcome final_state fst snd].
  destruct (negb _); [reflexivity|].
  destruct (negb _); [reflexivity|].
  destruct indices as [|i indices]; [reflexivity|].
  rewrite trace_bind. unfold call_ext.
  destruct (draw v s) as [[k|err] s1]; reflexivity.
Qed.

Lemma mapM_trace {A B} (P : Event Circuit Qubit -> Prop) (f : A -> M B)
    (l : list A) (s : Ext) :
  (forall x s1, Forall P (trace (f x s1))) ->
  Forall P (trace (mapM f l s)).
Proof.
  intros Hf. revert s. induction l as [|x tl IH]; intros s.
  - constructor.
  - cbn [mapM]. rewrite trace_bind. apply Forall_app. split; [apply Hf|].
    destruct (outcome (f x s)) as [y|err]; [|constructor].
    rewrite trace_bind. apply Forall_app. split; [apply IH|].
    destruct (outcome (mapM f tl _)); constructor.
Qed.

(** The corrector calls nothing but the sampler. *)
Lemma correct_result_trace (m : ndarray) (n : nat) (noisy : MeasurementResult)
    (s : Ext) :
  Forall is_sample_event (trace (corrector m n noisy s)).
Proof.
  unfold correct_result. rewrite trace_bind. cbn [lift trace outcome fst snd].
  destruct (correct m n noisy) as [adjusted|err]; [|constructor].
  cbn [app final_state fst snd]. unfold resample. rewrite trace_bind.
  apply Forall_app. split.
  - unfold apply_along_axis_sample.
    destruct (nd_rows adjusted) as [|v vs]; [constructor|].
    apply mapM_trace. intros x s1. rewrite sample_trace.
    constructor; [exact I|constructor].
  - destruct (outcome _); constructor.
Qed.

Lemma evaluate_trace (o : ObservableArg) (results : list MeasurementResult)
    (s : Ext) :
  trace (evaluate o results s) = [].
Proof. destruct o; reflexivity. Qed.


(* ------------------------------------------------------------------ *)
(** ** The observable *)

(** C9.  With [observable = None] no call returns a value: the evaluation of
    the expectation value raises [AttributeError] for every corrected result,
    and a call that does not fail there has failed before. *)
Theorem observable_none_always_fails :
  forall (c : Circuit) (e : ExecutorArg) (icm : option ndarray) (p0 p1 : Q)
         (s : Ext),
    is_ok (outcome (rci c e ObsNone icm p0 p1 s)) = false
    /\ forall (results : list MeasurementResult) (s1 : Ext),
         evaluate ObsNone results s1
         = (Err (AttributeError none_has_no_expectation), s1, []).
Proof.
  intros c e icm p0 p1 s. split.
  - unfold execute_with_rci.
    repeat (apply bind_fails; intros).
    reflexivity.
  - intros results s1. reflexivity.
Qed.

(* ------------------------------------------------------------------ *)
(** ** The flip probabilities *)

(** C10.  When an inverse confusion matrix is supplied, [p0] and [p1] play
    no part: two calls that differ in them only are the same computation,
    with the same outcome, final state and trace from every state. *)
Theorem supplied_matrix_ignores_p0_p1 :
  forall (c : Circuit) (e : ExecutorArg) (o : ObservableArg) (m : ndarray)
         (p0 p1 p0' p1' : Q),
    rci c e o (Some m) p0 p1 = rci c e o (Some m) p0' p1'
    /\ forall s : Ext,
         outcome (rci c e o (Some m) p0 p1 s)
         = outcome (rci c e o (Some m) p0' p1' s).
Proof.
  intros c e o m p0 p1 p0' p1'. split.
  - reflexivity.
  - intros s. reflexivity.
Qed.

Lemma evaluate_outcome (o : ObservableArg) (results : list MeasurementResult)
    (s s' : Ext) :
  outcome (evaluate o results s) = outcome (evaluate o results s').
Proof. destruct o; reflexivity. Qed.

Lemma raw_execute_returned (c : Circuit) (e : ExecutorArg) (o : ObservableArg)
    s noisy s1 t1 :
  fn_call (executor_fn (as_Executor e)) c s
  = (Ok (ObjMeasurementResult noisy), s1, t1) ->
  raw c e o s = (outcome (evaluate o [noisy] s1), s1, EvExecute c :: t1).
Proof.
  intros H. unfold raw_execute.
  unfold bind at 1. rewrite Executor_run_single, H.
  unfold bind at 1. unfold getitem0, ret at 1.
  unfold bind at 1. unfold assert_MeasurementResult, ret at 1.
  unfold expectation, lift, raise.
  destruct o; simpl; rewrite ?app_nil_r; reflexivity.
Qed.

(* ------------------------------------------------------------------ *)
(** ** Axes of length one

    [squeeze] removes the axis of the single repetition and, with it, the
    axis of the shots when there is one shot and the axis of the qubits when
    there is one qubit index. *)

Lemma squeeze_not_2d (k : nat) (sampled : list (list bool)) :
  length sampled = 1 \/ k = 1 ->
  forall rows, squeeze k sampled <> Bits2 rows.
Proof.
  intros H rows Hsq. apply squeeze_2d in Hsq.
  destruct Hsq as [_ [Hs Hk]]. destruct H; contradiction.
Qed.

(** On a noisy result with a single shot, or with a single qubit index, the
    corrector never returns a corrected result. *)
Lemma correct_result_single_axis (m : ndarray) (n : nat)
    (noisy : MeasurementResult) (s : Ext) :
  shots noisy = 1 \/ length (qubit_indices noisy) = 1 ->
  is_ok (outcome (corrector m n noisy s)) = false.
Proof.
  intros Haxis.
  destruct (corrector m n noisy s) as [[[res|err] s1] t1] eqn:H;
    [|reflexivity].
  exfalso.
  unfold correct_result, bind, lift in H.
  destruct (correct m n noisy) as [adjusted|] eqn:Hadj; [|discriminate].
  unfold resample, bind, lift in H.
  destruct (apply_along_axis_sample draw (qubit_indices noisy) adjusted s)
    as [[[sampled|] s2] t2] eqn:Hsampled; [|discriminate].
  destruct (MeasurementResult_init _ _) as [res'|] eqn:Hinit; [|discriminate].
  apply MeasurementResult_init_ok in Hinit. destruct Hinit as [Hsq _].
  revert Hsq. apply squeeze_not_2d.
  rewrite (apply_along_axis_sample_length _ _ _ Hsampled).
  rewrite (correct_nrows _ _ _ Hadj). exact Haxis.
Qed.

(** Hence a call whose executor returns such a result raises, whatever the
    matrix and the observable. *)
Lemma execute_with_rci_single_axis (c : Circuit) (e : ExecutorArg)
    (o : ObservableArg) (m : ndarray) (p0 p1 : Q) s noisy s1 t1 :
  fn_call (executor_fn (as_Executor e)) c s
  = (Ok (ObjMeasurementResult noisy), s1, t1) ->
  shots noisy = 1 \/ length (qubit_indices noisy) = 1 ->
  is_ok (outcome (rci c e o (Some m) p0 p1 s)) = false.
Proof.
  intros Hrun Haxis.
  rewrite (@execute_with_rci_supplied c e o m p0 p1 s noisy s1 t1 Hrun).
  pose proof (@correct_result_single_axis m (length (all_qubits c)) noisy s1
                Haxis) as Hfail.
  destruct (corrector m (length (all_qubits c)) noisy s1)
    as [[[res|err] s2] t2]; [discriminate|reflexivity].
Qed.

(* ------------------------------------------------------------------ *)
(** ** What the executor returns *)

(** The call with a supplied matrix, by what the executor does. *)
Lemma execute_with_rci_after_executor (c : Circuit) (e : ExecutorArg)
    (o : ObservableArg) (m : ndarray) (p0 p1 : Q) (s : Ext) :
  rci c e o (Some m) p0 p1 s
  = match fn_call (executor_fn (as_Executor e)) c s with
    | (Err err, s1, t1) => (Err err, s1, EvExecute c :: t1)
    | (Ok (ObjMeasurementResult noisy), s1, t1) =>
        match corrector m (length (all_qubits c)) noisy s1 with
        | (Ok res, s2, t2) =>
            (outcome (evaluate o [res] s2), s2, EvExecute c :: t1 ++ t2)
        | (Err err, s2, t2) => (Err err, s2, EvExecute c :: t1 ++ t2)
        end
    | (Ok _, s1, t1) => (Err AssertionError, s1, EvExecute c :: t1)
    end.
Proof.
  destruct (fn_call (executor_fn (as_Executor e)) c s)
    as [[[y|err] s1] t1] eqn:H.
  - destruct y as [noisy|x|].
    + apply (@execute_with_rci_supplied c e o m p0 p1 s noisy s1 t1 H).
    + unfold execute_with_rci.
      unfold bind at 1. unfold ret at 1.
      unfold bind at 1. rewrite Executor_run_single, H.
      simpl. rewrite ?app_nil_r. reflexivity.
    + unfold execute_with_rci.
      unfold bind at 1. unfold ret at 1.
      unfold bind at 1. rewrite Executor_run_single, H.
      simpl. rewrite ?app_nil_r. reflexivity.
  - unfold execute_with_rci.
    unfold bind at 1. unfold ret at 1.
    unfold bind at 1. rewrite Executor_run_single, H. reflexivity.
Qed.

(** X1.  With a supplied matrix, an exception raised by the executor is the
    outcome of the call; the state and the events are those the executor
    left, after its invocation, and nothing else has run. *)
Theorem executor_error_propagates :
  forall (c : Circuit) (e : ExecutorArg) (o : ObservableArg) (m : ndarray)
         (p0 p1 : Q) (s s1 : Ext) (err : PyError)
         (t1 : list (Event Circuit Qubit)),
    fn_call (executor_fn (as_Executor e)) c s = (Err err, s1, t1) ->
    rci c e o (Some m) p0 p1 s = (Err err, s1, EvExecute c :: t1).
Proof.
  intros c e o m p0 p1 s s1 err t1 H.
  rewrite execute_with_rci_after_executor, H. reflexivity.
Qed.

(** X2.  With a supplied matrix, when the executor returns anything but a
    [MeasurementResult] (a number, [None]), the call raises [AssertionError]
    right after the executor has run: nothing is encoded or sampled and the
    observable is not consulted. *)
Theorem executor_must_return_measurement_result :
  forall (c : Circuit) (e : ExecutorArg) (o : ObservableArg) (m : ndarray)
         (p0 p1 : Q) (s s1 : Ext) (y : PyObj)
         (t1 : list (Event Circuit Qubit)),
    fn_call (executor_fn (as_Executor e)) c s = (Ok y, s1, t1) ->
    (forall r, y <> ObjMeasurementResult r) ->
    rci c e o (Some m) p0 p1 s = (Err AssertionError, s1, EvExecute c :: t1).
Proof.
  intros c e o m p0 p1 s s1 y t1 H Hy.
  rewrite execute_with_rci_after_executor, H.
  destruct y as [r|x|]; [exfalso; apply (Hy r); reflexivity| |];
    reflexivity.
Qed.

(** X3.  With a supplied matrix, a measurement result without shots is
    refused by [np.apply_along_axis] with a [ValueError], whatever the
    matrix: the executor has run, nothing is sampled. *)
Theorem no_shots_raises :
  forall (c : Circuit) (e : ExecutorArg) (o : ObservableArg) (m : ndarray)
         (p0 p1 : Q) (s s1 : Ext) (noisy : MeasurementResult)
         (t1 : list (Event Circuit Qubit)),
    fn_call (executor_fn (as_Executor e)) c s
    = (Ok (ObjMeasurementResult noisy), s1, t1) ->
    shots noisy = 0 ->
    exists msg,
      rci c e o (Some m) p0 p1 s
      = (Err (ValueError msg), s1, EvExecute c :: t1).
Proof.
  intros c e o m p0 p1 s s1 noisy t1 H Hshots.
  exists apply_along_axis_empty.
  rewrite (@execute_with_rci_supplied c e o m p0 p1 s noisy s1 t1 H).
  unfold correct_result, bind, lift, correct, apply_along_axis_rows.
  unfold shots in Hshots. apply length_zero_iff_nil in Hshots.
  rewrite Hshots. simpl. rewrite app_nil_r. reflexivity.
Qed.

(* ------------------------------------------------------------------ *)
(** ** The calibration stage and the rest of the call *)

(** X4.  Without a matrix, a calibration that fails ends the call: whether
    the sampling run raises or the correction matrix cannot be computed, the
    exception is the outcome of the call and the executor is never invoked;
    the notice and the calibration run are all that happened. *)
Theorem calibration_failure_stops_before_executor :
  forall (c : Circuit) (e : ExecutorArg) (o : ObservableArg) (p0 p1 : Q)
         (s s1 : Ext) (err : PyError),
    measure_confusion_matrix p0 p1 (map (fun q => [q]) (all_qubits c)) s
    = (Err err, s1)
    \/ (exists tensored,
          measure_confusion_matrix p0 p1 (map (fun q => [q]) (all_qubits c)) s
          = (Ok tensored, s1)
          /\ correction_matrix tensored = Err err) ->
    rci c e o None p0 p1 s
    = (Err err, s1,
       [EvPrint notice;
        EvCalibrate p0 p1 (map (fun q => [q]) (all_qubits c))]).
Proof.
  intros c e o p0 p1 s s1 err H. unfold execute_with_rci.
  unfold bind at 1. unfold bind at 1. unfold print, emit at 1.
  unfold bind at 1. unfold calibrate at 1. unfold bind at 1, emit at 1.
  unfold call_ext.
  destruct H as [H|[tensored [H Hcm]]]; rewrite H; simpl.
  - reflexivity.
  - unfold lift. rewrite Hcm. reflexivity.
Qed.

(** X5.  Without a matrix, when the calibration yields the matrix [m], the
    call is the call with [m] supplied, started in the state the calibration
    left: same outcome, same final state, and the same events after the
    notice and the calibration run. *)
Theorem absent_matrix_is_calibration_then_supplied :
  forall (c : Circuit) (e : ExecutorArg) (o : ObservableArg) (p0 p1 : Q)
         (s s1 : Ext) (tensored : TensoredConfusionMatrices) (m : ndarray),
    measure_confusion_matrix p0 p1 (map (fun q => [q]) (all_qubits c)) s
    = (Ok tensored, s1) ->
    correction_matrix tensored = Ok m ->
    rci c e o None p0 p1 s
    = (outcome (rci c e o (Some m) p0 p1 s1),
       final_state (rci c e o (Some m) p0 p1 s1),
       EvPrint notice
         :: EvCalibrate p0 p1 (map (fun q => [q]) (all_qubits c))
         :: trace (rci c e o (Some m) p0 p1 s1)).
Proof.
  intros c e o p0 p1 s s1 tensored m H Hcm. unfold execute_with_rci.
  assert (Hcal :
    bind (print notice)
      (fun _ =>
         bind (calibrate measure_confusion_matrix p0 p1
                 (map (fun q => [q]) (all_qubits c)))
              (fun tensored_matrix => lift (correction_matrix tensored_matrix)))
      s
    = (Ok m, s1,
       [EvPrint notice;
        EvCalibrate p0 p1 (map (fun q => [q]) (all_qubits c))]
       : list (Event Circuit Qubit))).
  { cbv beta iota delta [bind print calibrate emit call_ext lift].
    rewrite H, Hcm. reflexivity. }
  rewrite !(bind_run (ret m)).
  cbn [ret outcome final_state trace fst snd app].
  rewrite bind_run, Hcal. reflexivity.
Qed.

(* ------------------------------------------------------------------ *)
(** ** Wrapping twice *)

(** X6.  A mitigated executor cannot be mitigated again: it returns a number,
    not a [MeasurementResult], so the second layer never returns a value.
    With a matrix supplied to the second layer, its outcome is
    [AssertionError] when the inner mitigated call succeeds and the inner
    exception otherwise. *)
Theorem mitigation_does_not_nest :
  forall (f : PyFunction) (o o' : ObservableArg) (icm icm' : option ndarray)
         (m' : ndarray) (p0 p1 p0' p1' : Q) (c : Circuit) (s : Ext),
    is_ok (outcome (fn_call (mitigated (mitigated f o icm p0 p1)
                                       o' icm' p0' p1') c s))
    = false
    /\ outcome (fn_call (mitigated (mitigated f o icm p0 p1)
                                   o' (Some m') p0' p1') c s)
       = match outcome (fn_call (mitigated f o icm p0 p1) c s) with
         | Ok _ => Err AssertionError
         | Err err => Err err
         end.
Proof.
  intros f o o' icm icm' m' p0 p1 p0' p1' c s.
  set (inner := mitigated f o icm p0 p1).
  assert (Hinner : forall s0,
            match fn_call inner c s0 with
            | (Ok y, _, _) => forall r, y <> ObjMeasurementResult r
            | (Err _, _, _) => True
            end).
  { intros s0. unfold inner, mitigate_executor, wraps. cbn [fn_call].
    unfold bind.
    destruct (rci c (ArgCallable f) o icm p0 p1 s0) as [[[x|err] s1] t1];
      cbn; [intros r; discriminate|exact I]. }
  split.
  - change (fn_call (mitigated inner o' icm' p0' p1') c s)
      with (bind (rci c (ArgCallable inner) o' icm' p0' p1')
                 (fun x => ret (ObjFloat x)) s).
    unfold bind at 1.
    assert (Hfail : is_ok (outcome (rci c (ArgCallable inner) o' icm' p0' p1' s))
                    = false).
    { unfold execute_with_rci. apply bind_fails. intros m1 s1.
      unfold bind at 1. rewrite Executor_run_single. cbn [as_Executor executor_fn].
      specialize (Hinner s1).
      destruct (fn_call inner c s1) as [[[y|err] s2] t2]; [|reflexivity].
      unfold bind at 1. unfold getitem0, ret at 1.
      unfold bind at 1.
      destruct y as [r|x|]; [exfalso; apply (Hinner r); reflexivity| |];
        reflexivity. }
    destruct (rci c (ArgCallable inner) o' icm' p0' p1' s) as [[[x|err] s1] t1];
      [discriminate|reflexivity].
  - change (fn_call (mitigated inner o' (Some m') p0' p1') c s)
      with (bind (rci c (ArgCallable inner) o' (Some m') p0' p1')
                 (fun x => ret (ObjFloat x)) s).
    unfold bind at 1.
    rewrite execute_with_rci_after_executor. cbn [as_Executor executor_fn].
    specialize (Hinner s).
    destruct (fn_call inner c s) as [[[y|err] s1] t1]; [|reflexivity].
    destruct y as [r|x|]; [exfalso; apply (Hinner r); reflexivity| |];
      reflexivity.
Qed.

(* ------------------------------------------------------------------ *)
(** ** What the resampling does and refuses *)

(** X7.  On a noisy result with a single shot, or with a single qubit index,
    a call with a supplied matrix never returns a value, whatever the matrix
    and the observable: [squeeze] removes the axis of length one along with
    the axis of the repetition, and what is left is not a sequence of bit
    vectors. *)
Theorem single_shot_or_single_qubit_never_returns :
  forall (c : Circuit) (e : ExecutorArg) (o : ObservableArg) (m : ndarray)
         (p0 p1 : Q) (s s1 : Ext) (noisy : MeasurementResult)
         (t1 : list (Event Circuit Qubit)),
    fn_call (executor_fn (as_Executor e)) c s
    = (Ok (ObjMeasurementResult noisy), s1, t1) ->
    shots noisy = 1 \/ length (qubit_indices noisy) = 1 ->
    is_ok (outcome (rci c e o (Some m) p0 p1 s)) = false.
Proof.
  intros c e o m p0 p1 s s1 noisy t1 Hrun Haxis.
  apply (@execute_with_rci_single_axis c e o m p0 p1 s noisy s1 t1 Hrun Haxis).
Qed.

Lemma mapM_trace_ok {A B} (f : A -> M B) (g : A -> Event Circuit Qubit)
    (l : list A) s ys s1 t1 :
  (forall x s0, trace (f x s0) = [g x]) ->
  mapM f l s = (Ok ys, s1, t1) ->
  t1 = map g l.
Proof.
  intros Hf. revert s ys s1 t1.
  induction l as [|x tl IH]; intros s ys s1 t1 H.
  - inversion H. reflexivity.
  - cbn [mapM] in H. rewrite bind_run in H.
    pose proof (Hf x s) as Hx.
    destruct (f x s) as [[[y|err] s2] t2]; [|discriminate].
    cbn [trace snd] in Hx. subst t2.
    rewrite bind_run in H.
    destruct (mapM f tl s2) as [[[zs|err] s3] t3] eqn:Htl; [|discriminate].
    cbn [ret outcome final_state trace fst snd] in H.
    inversion H. rewrite app_nil_r.
    rewrite (IH _ _ _ _ Htl). reflexivity.
Qed.

(** X8.  A correction that succeeds has called the sampler exactly once per
    shot, in the order of the shots, each time on the adjusted state vector
    of that shot and with the qubit indices of the noisy result; it has
    called nothing else. *)
Theorem correction_samples_once_per_shot :
  forall (m : ndarray) (n : nat) (noisy res : MeasurementResult)
         (adjusted : ndarray) (s s1 : Ext)
         (t1 : list (Event Circuit Qubit)),
    correct m n noisy = Ok adjusted ->
    corrector m n noisy s = (Ok res, s1, t1) ->
    t1 = map (fun v => EvSample v (qubit_indices noisy)) (nd_rows adjusted)
    /\ length t1 = shots noisy.
Proof.
  intros m n noisy res adjusted s s1 t1 Hadj H.
  assert (Ht : t1 = map (fun v => EvSample v (qubit_indices noisy))
                        (nd_rows adjusted)).
  { unfold correct_result in H. rewrite bind_run in H.
    unfold lift at 1 in H. rewrite Hadj in H.
    cbn [app] in H. unfold resample in H. rewrite bind_run in H.
    unfold apply_along_axis_sample in H.
    destruct (nd_rows adjusted) as [|v vs] eqn:Hrows; [discriminate|].
    destruct (mapM (fun v0 => sample v0 (qubit_indices noisy)) (v :: vs) s)
      as [[[sampled|err] s2] t2] eqn:Hsampled; [|discriminate].
    unfold lift in H. cbn [outcome final_state trace fst snd] in H.
    inversion H. rewrite app_nil_r.
    apply (@mapM_trace_ok _ _
             (fun v0 => sample v0 (qubit_indices noisy))
             (fun v0 => EvSample v0 (qubit_indices noisy))
             (v :: vs) s sampled s2 t2); [|exact Hsampled].
    intros x s0. apply sample_trace. }
  split; [exact Ht|].
  rewrite Ht, length_map. apply (correct_nrows _ _ _ Hadj).
Qed.

Lemma sample_out_of_range (n : nat) (v : list Q) (indices : list nat)
    (s : Ext) :
  length v = 2 ^ n ->
  Exists (fun i => n <= i) indices ->
  exists msg,
    sample v indices s = (Err (IndexError msg), s, [EvSample v indices]).
Proof.
  intros Hv Hidx. unfold sample_state_vector.
  rewrite Hv, Nat.log2_pow2 by lia. rewrite Nat.eqb_refl. cbn [negb].
  assert (Hall : forallb (fun i => i <? n) indices = false).
  { apply Exists_exists in Hidx. destruct Hidx as [i [Hin Hi]].
    destruct (forallb (fun i => i <? n) indices) eqn:Hf; [|reflexivity].
    rewrite forallb_forall in Hf. specialize (Hf i Hin).
    apply Nat.ltb_lt in Hf. lia. }
  rewrite Hall. cbn [negb]. eexists. reflexivity.
Qed.

Lemma sample_not_power_of_two (v : list Q) (indices : list nat) (s : Ext) :
  (forall k, length v <> 2 ^ k) ->
  exists msg,
    sample v indices s = (Err (ValueError msg), s, [EvSample v indices]).
Proof.
  intros Hv. unfold sample_state_vector.
  rewrite (proj2 (Nat.eqb_neq _ _) (Hv (Nat.log2 (length v)))).
  cbn [negb]. eexists. reflexivity.
Qed.

(** When the sampler refuses the adjusted vector of the first shot, the
    call ends there. *)
Lemma execute_with_rci_first_sample (c : Circuit) (e : ExecutorArg)
    (o : ObservableArg) (m : ndarray) (p0 p1 : Q) s noisy s1 t1 shot rest
    err :
  fn_call (executor_fn (as_Executor e)) c s
  = (Ok (ObjMeasurementResult noisy), s1, t1) ->
  result noisy = shot :: rest ->
  Forall (fun r => length r = length (all_qubits c)) (result noisy) ->
  nd_cols m = 2 ^ length (all_qubits c) ->
  sample (mat_vec m (one_hot (2 ^ length (all_qubits c))
                             (index_of_bits shot)))
         (qubit_indices noisy) s1
  = (Err err, s1,
     [EvSample (mat_vec m (one_hot (2 ^ length (all_qubits c))
                                   (index_of_bits shot)))
               (qubit_indices noisy)]) ->
  rci c e o (Some m) p0 p1 s
  = (Err err, s1,
     EvExecute c
       :: t1 ++ [EvSample (mat_vec m (one_hot (2 ^ length (all_qubits c))
                                              (index_of_bits shot)))
                          (qubit_indices noisy)]).
Proof.
  intros Hrun Hrows Hlen Hcols Hsample.
  rewrite (@execute_with_rci_supplied c e o m p0 p1 s noisy s1 t1 Hrun).
  assert (Hne : result noisy <> []) by (rewrite Hrows; discriminate).
  unfold correct_result. rewrite bind_run. unfold lift at 1.
  rewrite (@correct_ok m _ noisy Hcols Hne Hlen).
  unfold resample. rewrite bind_run.
  unfold apply_along_axis_sample. cbn [nd_rows].
  rewrite Hrows. unfold basis_states. cbn [map mapM].
  rewrite bind_run, Hsample. reflexivity.
Qed.

(** X9.  When the noisy result names a qubit index that is not below the
    number of qubits of the circuit, a call with a [2^n x 2^n] matrix raises
    [IndexError] at the first shot: the sampler takes the indices for
    positions in the register.  The executor has run; nothing is drawn. *)
Theorem out_of_range_qubit_index_raises :
  forall (c : Circuit) (e : ExecutorArg) (o : ObservableArg) (m : ndarray)
         (p0 p1 : Q) (s s1 : Ext) (noisy : MeasurementResult)
         (t1 : list (Event Circuit Qubit)) (shot : list bool)
         (rest : list (list bool)),
    fn_call (executor_fn (as_Executor e)) c s
    = (Ok (ObjMeasurementResult noisy), s1, t1) ->
    result noisy = shot :: rest ->
    Forall (fun r => length r = length (all_qubits c)) (result noisy) ->
    nd_cols m = 2 ^ length (all_qubits c) ->
    nd_nrows m = 2 ^ length (all_qubits c) ->
    Exists (fun i => length (all_qubits c) <= i) (qubit_indices noisy) ->
    exists msg,
      rci c e o (Some m) p0 p1 s
      = (Err (IndexError msg), s1,
         EvExecute c
           :: t1 ++ [EvSample
                       (mat_vec m (one_hot (2 ^ length (all_qubits c))
                                           (index_of_bits shot)))
                       (qubit_indices noisy)]).
Proof.
  intros c e o m p0 p1 s s1 noisy t1 shot rest Hrun Hrows Hlen Hcols Hnrows
         Hidx.
  destruct (@sample_out_of_range (length (all_qubits c))
              (mat_vec m (one_hot (2 ^ length (all_qubits c))
                                  (index_of_bits shot)))
              (qubit_indices noisy) s1) as [msg Hsample].
  - unfold mat_vec. rewrite length_map. exact Hnrows.
  - exact Hidx.
  - exists msg.
    apply (@execute_with_rci_first_sample c e o m p0 p1 s noisy s1 t1 shot
             rest (IndexError msg) Hrun Hrows Hlen Hcols Hsample).
Qed.

(** X10.  A matrix with [2^n] columns whose number of rows is not a power of
    two passes the matrix product and is refused by the sampler, with a
    [ValueError], at the first shot.  The executor has run; nothing is
    drawn. *)
Theorem rows_not_power_of_two_raise_at_sampling :
  forall (c : Circuit) (e : ExecutorArg) (o : ObservableArg) (m : ndarray)
         (p0 p1 : Q) (s s1 : Ext) (noisy : MeasurementResult)
         (t1 : list (Event Circuit Qubit)) (shot : list bool)
         (rest : list (list bool)),
    fn_call (executor_fn (as_Executor e)) c s
    = (Ok (ObjMeasurementResult noisy), s1, t1) ->
    result noisy = shot :: rest ->
    Forall (fun r => length r = length (all_qubits c)) (result noisy) ->
    nd_cols m = 2 ^ length (all_qubits c) ->
    (forall k, nd_nrows m <> 2 ^ k) ->
    exists msg,
      rci c e o (Some m) p0 p1 s
      = (Err (ValueError msg), s1,
         EvExecute c
           :: t1 ++ [EvSample
                       (mat_vec m (one_hot (2 ^ length (all_qubits c))
                                           (index_of_bits shot)))
                       (qubit_indices noisy)]).
Proof.
  intros c e o m p0 p1 s s1 noisy t1 shot rest Hrun Hrows Hlen Hcols Hnrows.
  destruct (@sample_not_power_of_two
              (mat_vec m (one_hot (2 ^ length (all_qubits c))
                                  (index_of_bits shot)))
              (qubit_indices noisy) s1) as [msg Hsample].
  - unfold mat_vec. rewrite length_map. exact Hnrows.
  - exists msg.
    apply (@execute_with_rci_first_sample c e o m p0 p1 s noisy s1 t1 shot
             rest (ValueError msg) Hrun Hrows Hlen Hcols Hsample).
Qed.

(* ------------------------------------------------------------------ *)
(** ** The decorated executor *)

(** X14.  When the first argument of [rci_decorator] is not callable, the
    decorator it returns turns an executor into a function whose call on a
    circuit is [execute_with_rci] on that circuit and executor with the
    observable, matrix and flip probabilities given to [rci_decorator]: the
    same outcome (the value as a number), final state and events. *)
Theorem decorated_executor_runs_execute_with_rci :
  forall (o : ObservableArg) (icm : option ndarray) (p0 p1 : Q)
         (f : PyFunction) (c : Circuit) (s : Ext),
    callable o = false ->
    exists decorator,
      decorate o icm p0 p1 = Ok decorator
      /\ fn_call (decorator f) c s
         = (match outcome (rci c (ArgCallable f) o icm p0 p1 s) with
            | Ok x => Ok (ObjFloat x)
            | Err err => Err err
            end,
            final_state (rci c (ArgCallable f) o icm p0 p1 s),
            trace (rci c (ArgCallable f) o icm p0 p1 s)).
Proof.
  intros o icm p0 p1 f c s Hcallable. unfold rci_decorator.
  rewrite Hcallable. eexists. split; [reflexivity|].
  unfold mitigate_executor, wraps. cbn [fn_call].
  rewrite bind_run.
  destruct (rci c (ArgCallable f) o icm p0 p1 s) as [[[x|err] s1] t1];
    cbn [ret outcome final_state trace fst snd]; rewrite ?app_nil_r;
    reflexivity.
Qed.

(* ------------------------------------------------------------------ *)
(** ** Matrices that permute the basis states

    Where the sampler is handed basis state vectors only, the draw is
    determined, and so is the corrected result. *)

Section BasisStates.

(** The draw from a basis state vector is that basis state. *)
Hypothesis draw_basis_state :
  forall (len k : nat) (s : Ext),
    k < len -> exists s1, draw (one_hot len k) s = (Ok k, s1).

Lemma sample_basis_state (n k : nat) (indices : list nat) (s : Ext) :
  k < 2 ^ n ->
  Forall (fun i => i < n) indices ->
  exists s1,
    sample (one_hot (2 ^ n) k) indices s
    = (Ok (map (bit_of_index n k) indices), s1,
       [EvSample (one_hot (2 ^ n) k) indices]).
Proof.
  intros Hk Hidx. unfold sample_state_vector.
  rewrite one_hot_length, Nat.log2_pow2 by lia.
  rewrite Nat.eqb_refl. cbn [negb].
  assert (Hall : forallb (fun i => i <? n) indices = true).
  { apply forallb_forall. intros i Hi. apply Nat.ltb_lt.
    apply (proj1 (Forall_forall _ _) Hidx). exact Hi. }
  rewrite Hall. cbn [negb].
  destruct indices as [|i indices].
  - exists s. reflexivity.
  - destruct (@draw_basis_state (2 ^ n) k s Hk) as [s1 Hdraw].
    exists s1. unfold bind, emit, call_ext, ret. rewrite Hdraw. reflexivity.
Qed.

Lemma mapM_sample_basis_states (n : nat) (indices : list nat)
    (ks : list nat) (s : Ext) :
  Forall (fun k => k < 2 ^ n) ks ->
  Forall (fun i => i < n) indices ->
  exists s1 t1,
    mapM (fun v => sample v indices) (map (one_hot (2 ^ n)) ks) s
    = (Ok (map (fun k => map (bit_of_index n k) indices) ks), s1, t1).
Proof.
  intros Hks Hidx. revert s.
  induction Hks as [|k ks Hk _ IH]; intros s.
  - exists s, []. reflexivity.
  - destruct (@sample_basis_state n k indices s Hk Hidx) as [s1 Hs1].
    destruct (IH s1) as [s2 [t2 Hs2]].
    exists s2. eexists. cbn [map mapM]. unfold bind at 1. rewrite Hs1.
    unfold bind at 1. rewrite Hs2. unfold ret. reflexivity.
Qed.

(** The corrector with a matrix [m] that sends basis state [k] to basis
    state [perm k]: every shot is replaced by the bits of [perm] of its
    value, read at the qubit indices of the noisy result. *)
Lemma correct_result_permutation (m : ndarray) (perm : nat -> nat) (n : nat)
    (noisy : MeasurementResult) (s : Ext) :
  nd_cols m = 2 ^ n ->
  (forall k, k < 2 ^ n ->
     mat_vec m (one_hot (2 ^ n) k) = one_hot (2 ^ n) (perm k)
     /\ perm k < 2 ^ n) ->
  Forall (fun shot => length shot = n) (result noisy) ->
  Forall (fun i => i < n) (qubit_indices noisy) ->
  2 <= shots noisy ->
  length (qubit_indices noisy) <> 1 ->
  exists s1 t1,
    corrector m n noisy s
    = (Ok {| result :=
               map (fun shot =>
                      map (bit_of_index n (perm (index_of_bits shot)))
                          (qubit_indices noisy))
                   (result noisy);
             qubit_indices := qubit_indices noisy |}, s1, t1).
Proof.
  intros Hcols Hperm Hlen Hidx Hshots Hk.
  assert (Hne : result noisy <> []).
  { unfold shots in Hshots. destruct (result noisy); simpl in *; [lia|].
    discriminate. }
  unfold correct_result, bind, lift.
  rewrite (@correct_ok m n noisy Hcols Hne Hlen).
  assert (Hvs : map (mat_vec m) (basis_states n (result noisy))
                = map (one_hot (2 ^ n))
                      (map (fun shot => perm (index_of_bits shot))
                           (result noisy))).
  { unfold basis_states. rewrite !map_map.
    apply map_ext_in. intros shot Hin.
    apply Hperm.
    rewrite <- (proj1 (Forall_forall _ _) Hlen shot Hin).
    apply index_of_bits_lt. }
  rewrite Hvs.
  assert (Hks : Forall (fun k => k < 2 ^ n)
                       (map (fun shot => perm (index_of_bits shot))
                            (result noisy))).
  { apply Forall_forall. intros k Hin. apply in_map_iff in Hin.
    destruct Hin as [shot [<- Hin]]. apply Hperm.
    rewrite <- (proj1 (Forall_forall _ _) Hlen shot Hin).
    apply index_of_bits_lt. }
  destruct (@mapM_sample_basis_states n (qubit_indices noisy) _ s Hks Hidx)
    as [s1 [t1 Hsampled]].
  exists s1. eexists.
  unfold resample, apply_along_axis_sample. cbn [nd_rows].
  destruct (map (one_hot (2 ^ n)) _) as [|v vs] eqn:Hrows.
  { apply map_eq_nil in Hrows. apply map_eq_nil in Hrows. congruence. }
  unfold bind. rewrite Hsampled.
  unfold squeeze. rewrite !length_map.
  unfold shots in Hshots.
  rewrite (proj2 (Nat.eqb_neq _ _)) by lia.
  rewrite (proj2 (Nat.eqb_neq _ _) Hk).
  cbn [MeasurementResult_init lift]. rewrite map_map. reflexivity.
Qed.

(** With the identity matrix and the qubit indices [0 .. n-1], from two
    shots and for any number of qubits but one, the corrector returns the
    noisy result. *)
Lemma correct_result_identity (n : nat) (noisy : MeasurementResult) (s : Ext) :
  Forall (fun shot => length shot = n) (result noisy) ->
  qubit_indices noisy = seq 0 n ->
  2 <= shots noisy ->
  n <> 1 ->
  exists s1 t1, corrector (identity (2 ^ n)) n noisy s = (Ok noisy, s1, t1).
Proof.
  intros Hlen Hidx Hshots Hn.
  destruct (@correct_result_permutation (identity (2 ^ n)) (fun k => k) n
              noisy s) as [s1 [t1 H]]; try assumption.
  - reflexivity.
  - intros k Hk. split; [apply identity_one_hot|exact Hk].
  - rewrite Hidx. apply Forall_forall. intros i Hi. apply in_seq in Hi. lia.
  - rewrite Hidx, length_seq. exact Hn.
  - exists s1, t1. rewrite H.
    destruct noisy as [rows indices]. cbn [result qubit_indices] in *.
    subst indices.
    assert (Hrows :
      map (fun shot => map (bit_of_index n (index_of_bits shot)) (seq 0 n))
          rows
      = rows); [|rewrite Hrows; reflexivity].
    transitivity (map (fun r : list bool => r) rows); [|apply map_id].
    apply map_ext_in. intros shot Hin.
    rewrite <- (proj1 (Forall_forall _ _) Hlen shot Hin).
    apply bits_of_index_of_bits.
Qed.

(** With the anti-diagonal matrix, a noisy result in which every bit of
    the rows [true_rows] is flipped is corrected to [true_rows]. *)
Lemma correct_result_antidiagonal (n : nat) (true_rows : list (list bool))
    (s : Ext) :
  Forall (fun shot => length shot = n) true_rows ->
  2 <= length true_rows ->
  n <> 1 ->
  exists s1 t1,
    corrector (antidiagonal (2 ^ n)) n
      {| result := map (map negb) true_rows; qubit_indices := seq 0 n |} s
    = (Ok {| result := true_rows; qubit_indices := seq 0 n |}, s1, t1).
Proof.
  intros Hlen Hshots Hn.
  destruct (@correct_result_permutation (antidiagonal (2 ^ n))
              (fun k => 2 ^ n - 1 - k) n
              {| result := map (map negb) true_rows;
                 qubit_indices := seq 0 n |} s) as [s1 [t1 H]].
  - reflexivity.
  - intros k Hk. split; [apply antidiagonal_one_hot; exact Hk|lia].
  - cbn [result]. apply Forall_forall. intros shot Hin.
    apply in_map_iff in Hin. destruct Hin as [r [<- Hin]].
    rewrite length_map. apply (proj1 (Forall_forall _ _) Hlen r Hin).
  - cbn [qubit_indices]. apply Forall_forall. intros i Hi.
    apply in_seq in Hi. lia.
  - unfold shots. cbn [result]. rewrite length_map. exact Hshots.
  - cbn [qubit_indices]. rewrite length_seq. exact Hn.
  - exists s1, t1. rewrite H. cbn [result qubit_indices].
    assert (Hrows :
      map (fun shot =>
             map (bit_of_index n (2 ^ n - 1 - index_of_bits shot)) (seq 0 n))
          (map (map negb) true_rows)
      = true_rows); [|rewrite Hrows; reflexivity].
    rewrite map_map.
    transitivity (map (fun r : list bool => r) true_rows); [|apply map_id].
    apply map_ext_in. intros r Hin.
    pose proof (proj1 (Forall_forall _ _) Hlen r Hin) as Hr.
    cbv beta in Hr.
    rewrite index_of_bits_negb, Hr.
    pose proof (index_of_bits_lt r) as Hlt. rewrite Hr in Hlt.
    replace (2 ^ n - 1 - (2 ^ n - 1 - index_of_bits r))
      with (index_of_bits r) by lia.
    rewrite <- Hr. apply bits_of_index_of_bits.
Qed.

(** Identity invariance where no axis is squeezed away: with the identity
    matrix, qubit indices [0 .. n-1], at least two shots and a number of
    qubits other than one, the mitigated value is the unmitigated one. *)
Lemma identity_invariance (c : Circuit) (e : ExecutorArg) (o : ObservableArg)
    (p0 p1 : Q) s noisy s1 t1 :
  fn_call (executor_fn (as_Executor e)) c s
  = (Ok (ObjMeasurementResult noisy), s1, t1) ->
  Forall (fun shot => length shot = length (all_qubits c)) (result noisy) ->
  qubit_indices noisy = seq 0 (length (all_qubits c)) ->
  2 <= shots noisy ->
  length (all_qubits c) <> 1 ->
  outcome (rci c e o (Some (identity (2 ^ length (all_qubits c)))) p0 p1 s)
  = outcome (raw c e o s).
Proof.
  intros Hrun Hlen Hidx Hshots Hn.
  rewrite (@execute_with_rci_supplied c e o _ p0 p1 s noisy s1 t1 Hrun).
  rewrite (@raw_execute_returned c e o s noisy s1 t1 Hrun).
  destruct (@correct_result_identity (length (all_qubits c)) noisy s1
              Hlen Hidx Hshots Hn) as [s2 [t2 H]].
  rewrite H. apply evaluate_outcome.
Qed.

(** Full-flip correction where no axis is squeezed away: when the executor
    returns [true_rows] with every bit flipped, the anti-diagonal matrix
    gives the value of the observable on [true_rows]. *)
Lemma full_flip_correction (c : Circuit) (e : ExecutorArg) (o : ObservableArg)
    (p0 p1 : Q) s (true_rows : list (list bool)) s1 t1 :
  fn_call (executor_fn (as_Executor e)) c s
  = (Ok (ObjMeasurementResult
           {| result := map (map negb) true_rows;
              qubit_indices := seq 0 (length (all_qubits c)) |}), s1, t1) ->
  Forall (fun shot => length shot = length (all_qubits c)) true_rows ->
  2 <= length true_rows ->
  length (all_qubits c) <> 1 ->
  outcome (rci c e o (Some (antidiagonal (2 ^ length (all_qubits c)))) p0 p1 s)
  = outcome (evaluate o [{| result := true_rows;
                            qubit_indices := seq 0 (length (all_qubits c)) |}]
                      s).
Proof.
  intros Hrun Hlen Hshots Hn.
  rewrite (@execute_with_rci_supplied c e o _ p0 p1 s _ s1 t1 Hrun).
  destruct (@correct_result_antidiagonal (length (all_qubits c)) true_rows s1
              Hlen Hshots Hn) as [s2 [t2 H]].
  rewrite H. apply evaluate_outcome.
Qed.

(** X11.  Identity invariance.  When the executor returns a result with at
    least two shots of [n] bits and the qubit indices [0 .. n-1], [n] the
    number of qubits of the circuit and not one, and the sampler draws the
    basis state from a basis state vector, the call with the identity matrix
    of size [2^n] returns what [raw_execute] returns: the unmitigated
    value, or the exception of the observable. *)
Theorem identity_matrix_returns_unmitigated_value :
  forall (c : Circuit) (e : ExecutorArg) (o : ObservableArg) (p0 p1 : Q)
         (s s1 : Ext) (noisy : MeasurementResult)
         (t1 : list (Event Circuit Qubit)),
    fn_call (executor_fn (as_Executor e)) c s
    = (Ok (ObjMeasurementResult noisy), s1, t1) ->
    Forall (fun shot => length shot = length (all_qubits c)) (result noisy) ->
    qubit_indices noisy = seq 0 (length (all_qubits c)) ->
    2 <= shots noisy ->
    length (all_qubits c) <> 1 ->
    outcome (rci c e o (Some (identity (2 ^ length (all_qubits c)))) p0 p1 s)
    = outcome (raw c e o s).
Proof.
  intros c e o p0 p1 s s1 noisy t1 Hrun Hlen Hidx Hshots Hn.
  apply (@identity_invariance c e o p0 p1 s noisy s1 t1 Hrun Hlen Hidx Hshots
           Hn).
Qed.

(** X12.  Full-flip correction.  When the executor returns the rows
    [true_rows] with every bit flipped, at least two of them, over the qubit
    indices [0 .. n-1] with [n] not one, and the sampler draws the basis
    state from a basis state vector, the call with the anti-diagonal matrix
    of size [2^n] returns the value of the observable on [true_rows]. *)
Theorem antidiagonal_matrix_undoes_full_flip :
  forall (c : Circuit) (e : ExecutorArg) (o : ObservableArg) (p0 p1 : Q)
         (s s1 : Ext) (true_rows : list (list bool))
         (t1 : list (Event Circuit Qubit)),
    fn_call (executor_fn (as_Executor e)) c s
    = (Ok (ObjMeasurementResult
             {| result := map (map negb) true_rows;
                qubit_indices := seq 0 (length (all_qubits c)) |}), s1, t1) ->
    Forall (fun shot => length shot = length (all_qubits c)) true_rows ->
    2 <= length true_rows ->
    length (all_qubits c) <> 1 ->
    outcome (rci c e o (Some (antidiagonal (2 ^ length (all_qubits c))))
                 p0 p1 s)
    = outcome (evaluate o
                 [{| result := true_rows;
                     qubit_indices := seq 0 (length (all_qubits c)) |}] s).
Proof.
  intros c e o p0 p1 s s1 true_rows t1 Hrun Hlen Hshots Hn.
  apply (@full_flip_correction c e o p0 p1 s true_rows s1 t1 Hrun Hlen Hshots
           Hn).
Qed.


End BasisStates.

End Properties.

(* ================================================================== *)
(** * The test scenarios *)

Import TestRem.

Lemma first_nonzero_one_hot (a len k i0 : nat) :
  a <= k < a + len ->
  first_nonzero (map (fun j => if j =? k then 1%Q else 0%Q) (seq a len)) i0
  = Some (i0 + (k - a)).
Proof.
  revert a i0. induction len as [|len IH]; intros a i0 Hk.
  - lia.
  - cbn [seq map first_nonzero].
    destruct (Nat.eqb_spec a k) as [->|Hne].
    + cbn. f_equal. lia.
    + cbn. rewrite IH by lia. f_equal. lia.
Qed.

(** The stand-in draw of the test backend is exact on basis states. *)
Lemma draw_basis_state (len k s : nat) :
  k < len -> exists s1, draw (one_hot len k) s = (Ok k, s1).
Proof.
  intros Hk. exists (S s). unfold draw, one_hot.
  rewrite first_nonzero_one_hot by lia.
  repeat f_equal. lia.
Qed.



(** C2 on a matrix with negative entries and columns that do not sum to
    one: the shots [1] and [0] of a single qubit become the second and the
    first column of the matrix. *)
Lemma correct_applies_matrix_to_each_shot_witness :
  nd_cols two_by_two = 2 ^ 1
  /\ correct two_by_two 1 one_and_zero
     = Ok {| nd_cols := 2; nd_rows := [[-1; 3]; [2; -1]]%Q |}.
Proof.
  split.
  - reflexivity.
  - apply (@correct_applies_matrix_to_each_shot
             Circuit nat nat draw two_by_two 1 one_and_zero).
    + reflexivity.
    + discriminate.
    + repeat constructor.
Defined.

(** C8 on the full-flip scenario with two shots: the corrected result has
    the two shots and the qubit indices of the noisy one. *)
Lemma corrected_result_keeps_indices_and_shots_witness :
  correct_result (antidiagonal 4) 2 all_zero 0
  = (Ok all_one, 2,
     [EvSample (one_hot 4 3) [0; 1]; EvSample (one_hot 4 3) [0; 1]])
  /\ qubit_indices all_one = qubit_indices all_zero
  /\ shots all_one = shots all_zero.
Proof.
  split.
  - reflexivity.
  - apply (@corrected_result_keeps_indices_and_shots
             Circuit nat nat draw (antidiagonal 4) 2 all_zero all_one 0 2
             [EvSample (one_hot 4 3) [0; 1]; EvSample (one_hot 4 3) [0; 1]]).
    reflexivity.
Defined.

(** The scenario of [test_rem_identity], with the [8192] shots of the test
    backend: the mitigated value is the unmitigated one, [-2]. *)
Lemma test_rem_identity :
  outcome (execute_with_rci circ (ArgCallable (sample_bitstrings default_shots))
             (ObsObservable observable) (Some (identity 4))
             default_p default_p 0)
  = Ok (-2)%Q
  /\ outcome (raw_execute circ (ArgCallable (sample_bitstrings default_shots))
                (ObsObservable observable) 0)
     = Ok (-2)%Q.
Proof.
  assert (Hraw : outcome (raw_execute circ
                            (ArgCallable (sample_bitstrings default_shots))
                            (ObsObservable observable) 0)
                 = Ok (-2)%Q) by (vm_compute; reflexivity).
  split; [|exact Hraw].
  rewrite <- Hraw. unfold execute_with_rci, raw_execute.
  apply (@identity_invariance
           Circuit nat all_qubits nat draw nat measure_confusion_matrix
           correction_matrix Observable expectation_from_measurements
           draw_basis_state circ (ArgCallable (sample_bitstrings default_shots))
           (ObsObservable observable) default_p default_p 0
           {| result := repeat circ default_shots; qubit_indices := [0; 1] |} 1 []).
  - reflexivity.
  - apply Forall_forall. intros shot Hin.
    apply repeat_spec in Hin. subst shot. reflexivity.
  - reflexivity.
  - unfold shots. cbn [result]. rewrite repeat_length.
    apply Nat.leb_le. vm_compute. reflexivity.
  - discriminate.
Qed.

(** The scenario of [test_rem_with_matrix]: the executor flips every bit of
    the 2-qubit circuit, the unmitigated value is [2], and the anti-diagonal
    matrix gives [-2]. *)
Lemma test_rem_with_matrix :
  outcome (raw_execute circ (ArgCallable (noisy_readout_executor default_shots))
             (ObsObservable observable) 0)
  = Ok 2%Q
  /\ outcome (execute_with_rci circ
                (ArgCallable (noisy_readout_executor default_shots))
                (ObsObservable observable) (Some (antidiagonal 4))
                default_p default_p 0)
     = Ok (-2)%Q.
Proof.
  split; [vm_compute; reflexivity|].
  unfold execute_with_rci.
  change (antidiagonal 4) with (antidiagonal (2 ^ length (all_qubits circ))).
  rewrite (@full_flip_correction
             Circuit nat all_qubits nat draw nat measure_confusion_matrix
             correction_matrix Observable expectation_from_measurements
             draw_basis_state circ
             (ArgCallable (noisy_readout_executor default_shots))
             (ObsObservable observable) default_p default_p 0
             (repeat circ default_shots) 1 []).
  - vm_compute. reflexivity.
  - vm_compute. reflexivity.
  - apply Forall_forall. intros shot Hin.
    apply repeat_spec in Hin. subst shot. reflexivity.
  - rewrite repeat_length.
    apply Nat.leb_le. vm_compute. reflexivity.
  - discriminate.
Qed.

(** C3 at a single-qubit circuit.  With the identity matrix of size 2 and a
    noiseless executor, the unmitigated value is [-1], and the mitigated
    call raises instead of returning it: the sampled bits form an array of
    shape [(shots, 1, 1)] that [squeeze] flattens to one dimension, which is
    not a sequence of bit vectors.  The call raises for every number of
    shots, observable, flip probabilities and state of the backend. *)
Theorem identity_matrix_single_qubit_raises :
  outcome (raw_execute circ1 (ArgCallable (sample_bitstrings 2))
             (ObsObservable observable1) 0)
  = Ok (-1)%Q
  /\ outcome (execute_with_rci circ1 (ArgCallable (sample_bitstrings 2))
                (ObsObservable observable1) (Some (identity 2))
                default_p default_p 0)
     = Err (TypeError not_bit_vectors)
  /\ squeeze 1 [[true]; [true]] = Bits1 [true; true]
  /\ forall (n_shots : nat) o (p0 p1 : Q) (s : nat),
       is_ok (outcome (execute_with_rci circ1
                         (ArgCallable (sample_bitstrings n_shots)) o
                         (Some (identity 2)) p0 p1 s))
       = false.
Proof.
  split; [vm_compute; reflexivity|].
  split; [vm_compute; reflexivity|].
  split; [reflexivity|].
  intros n_shots o p0 p1 s. unfold execute_with_rci.
  apply (@execute_with_rci_single_axis
           Circuit nat all_qubits nat draw nat measure_confusion_matrix
           correction_matrix Observable expectation_from_measurements
           circ1 (ArgCallable (sample_bitstrings n_shots)) o (identity 2)
           p0 p1 s
           {| result := repeat circ1 n_shots; qubit_indices := [0] |}
           (S s) []).
  - reflexivity.
  - right. reflexivity.
Qed.

(** C4 at a single-qubit circuit.  The executor flips the measured bit, so
    the unmitigated value is [1] where the true one is [-1]; with the
    anti-diagonal matrix of size 2 the mitigated call raises instead of
    returning [-1], for the reason given for the identity matrix, and it
    does so for every number of shots, observable, flip probabilities and
    state of the backend. *)
Theorem full_flip_single_qubit_raises :
  outcome (raw_execute circ1 (ArgCallable (sample_bitstrings 2))
             (ObsObservable observable1) 0)
  = Ok (-1)%Q
  /\ outcome (raw_execute circ1 (ArgCallable (noisy_readout_executor 2))
                (ObsObservable observable1) 0)
     = Ok 1%Q
  /\ outcome (execute_with_rci circ1
                (ArgCallable (noisy_readout_executor 2))
                (ObsObservable observable1) (Some (antidiagonal 2))
                default_p default_p 0)
     = Err (TypeError not_bit_vectors)
  /\ forall (n_shots : nat) o (p0 p1 : Q) (s : nat),
       is_ok (outcome (execute_with_rci circ1
                         (ArgCallable (noisy_readout_executor n_shots)) o
                         (Some (antidiagonal 2)) p0 p1 s))
       = false.
Proof.
  split; [vm_compute; reflexivity|].
  split; [vm_compute; reflexivity|].
  split; [vm_compute; reflexivity|].
  intros n_shots o p0 p1 s. unfold execute_with_rci.
  apply (@execute_with_rci_single_axis
           Circuit nat all_qubits nat draw nat measure_confusion_matrix
           correction_matrix Observable expectation_from_measurements
           circ1 (ArgCallable (noisy_readout_executor n_shots)) o
           (antidiagonal 2) p0 p1 s
           {| result := repeat (map negb circ1) n_shots;
              qubit_indices := [0] |}
           (S s) []).
  - reflexivity.
  - right. reflexivity.
Qed.

(** A matrix with [2^n] columns and another number of rows passes the matrix
    product.  With the test backend the 8x4 matrix [tall] is not refused at
    all on the 2-qubit circuit: the sampler reads the 8 entries of an
    adjusted vector as the state of three qubits. *)
Remark tall_matrix_is_not_refused :
  nd_shape tall = (8, 4)
  /\ outcome (execute_with_rci circ (ArgCallable (sample_bitstrings 2))
                (ObsObservable observable) (Some tall) default_p default_p 0)
     = Ok 0%Q.
Proof. split; vm_compute; reflexivity. Qed.

(** The sampler reads the qubit indices of the noisy result as positions in
    the register.  With the identity matrix, a result with the indices
    [(1, 0)] comes back with the two bits of every shot exchanged, and a
    result with the indices [(1, 2)] is refused. *)
Remark qubit_indices_are_positions :
  outcome (correct_result (identity 4) 2
             {| result := [[true; false]; [true; false]];
                qubit_indices := [1; 0] |} 0)
  = Ok {| result := [[false; true]; [false; true]];
          qubit_indices := [1; 0] |}
  /\ outcome (correct_result (identity 4) 2
                {| result := [[true; false]; [true; false]];
                   qubit_indices := [1; 2] |} 0)
     = Err (IndexError "Out of range indices").
Proof. split; vm_compute; reflexivity. Qed.

(** The scenario of [test_doc_is_preserved]: the mitigated executor and the
    decorated one carry the documentation string and the name of
    [first_executor]. *)
Lemma test_doc_is_preserved :
  fn_doc (mitigate_executor first_executor ObsNone (Some (identity 4))
            default_p default_p)
  = Some "Doc of the original executor."%string
  /\ fn_name (mitigate_executor first_executor ObsNone (Some (identity 4))
                default_p default_p)
     = Some "first_executor"%string
  /\ match rci_decorator ObsNone (Some (identity 4)) default_p default_p with
     | Ok decorator =>
         fn_doc (decorator first_executor) = fn_doc first_executor
     | Err _ => False
     end.
Proof. repeat split. Qed.

(** [@rci_decorator] without parentheses on [first_executor]: the function
    arrives as the first positional argument and the decorator raises. *)
Lemma decorator_without_parentheses :
  rci_decorator (ObsCallable first_executor) None default_p default_p
  = Err (TypeError decorator_misuse).
Proof. reflexivity. Qed.

(* ================================================================== *)
(** * Further scenarios *)

(** X1 on an executor whose backend is unavailable. *)
Lemma executor_error_propagates_witness :
  execute_with_rci circ (ArgCallable failing_executor)
    (ObsObservable observable) (Some (identity 4)) default_p default_p 0
  = (Err (ValueError "backend unavailable"), 0, [EvExecute circ]).
Proof.
  unfold execute_with_rci.
  apply (@executor_error_propagates
           Circuit nat all_qubits nat draw nat measure_confusion_matrix
           correction_matrix Observable expectation_from_measurements
           circ (ArgCallable failing_executor) (ObsObservable observable)
           (identity 4) default_p default_p 0 0
           (ValueError "backend unavailable") []).
  reflexivity.
Defined.

(** X2 on [first_executor], which returns the number [0]. *)
Lemma executor_must_return_measurement_result_witness :
  fn_call first_executor circ 0 = (Ok (ObjFloat 0), 0, [])
  /\ execute_with_rci circ (ArgCallable first_executor)
       (ObsObservable observable) (Some (identity 4)) default_p default_p 0
     = (Err AssertionError, 0, [EvExecute circ]).
Proof.
  split; [reflexivity|].
  unfold execute_with_rci.
  apply (@executor_must_return_measurement_result
           Circuit nat all_qubits nat draw nat measure_confusion_matrix
           correction_matrix Observable expectation_from_measurements
           circ (ArgCallable first_executor) (ObsObservable observable)
           (identity 4) default_p default_p 0 0 (ObjFloat 0) []).
  - reflexivity.
  - intros r. discriminate.
Defined.

(** X3 on a noiseless executor asked for no shot. *)
Lemma no_shots_raises_witness :
  exists msg,
    execute_with_rci circ (ArgCallable (sample_bitstrings 0))
      (ObsObservable observable) (Some (identity 4)) default_p default_p 0
    = (Err (ValueError msg), 1, [EvExecute circ]).
Proof.
  unfold execute_with_rci.
  apply (@no_shots_raises
           Circuit nat all_qubits nat draw nat measure_confusion_matrix
           correction_matrix Observable expectation_from_measurements
           circ (ArgCallable (sample_bitstrings 0)) (ObsObservable observable)
           (identity 4) default_p default_p 0 1
           {| result := []; qubit_indices := [0; 1] |} []).
  - reflexivity.
  - reflexivity.
Defined.

(** X4 on a calibration whose confusion matrix cannot be inverted. *)
Lemma calibration_failure_stops_before_executor_witness :
  execute_with_rci_singular circ (ArgCallable (sample_bitstrings 2))
    (ObsObservable observable) None default_p default_p 0
  = (Err (ValueError "Singular matrix"), 1,
     [EvPrint notice; EvCalibrate default_p default_p [[0]; [1]]]).
Proof.
  unfold execute_with_rci_singular.
  apply (@calibration_failure_stops_before_executor
           Circuit nat all_qubits nat draw nat measure_confusion_matrix
           singular_correction_matrix Observable expectation_from_measurements
           circ (ArgCallable (sample_bitstrings 2)) (ObsObservable observable)
           default_p default_p 0 1 (ValueError "Singular matrix")).
  right. exists 2. split; reflexivity.
Defined.

(** X5 on the test backend, whose calibration yields the identity. *)
Lemma absent_matrix_is_calibration_then_supplied_witness :
  correction_matrix 2 = Ok (identity 4)
  /\ execute_with_rci circ (ArgCallable (sample_bitstrings 2))
       (ObsObservable observable) None default_p default_p 0
     = (Ok (-2)%Q, 4,
        [EvPrint notice; EvCalibrate default_p default_p [[0]; [1]];
         EvExecute circ;
         EvSample (one_hot 4 3) [0; 1]; EvSample (one_hot 4 3) [0; 1]]).
Proof.
  split; [reflexivity|].
  unfold execute_with_rci.
  apply (@absent_matrix_is_calibration_then_supplied
           Circuit nat all_qubits nat draw nat measure_confusion_matrix
           correction_matrix Observable expectation_from_measurements
           circ (ArgCallable (sample_bitstrings 2)) (ObsObservable observable)
           default_p default_p 0 1 2 (identity 4)).
  - reflexivity.
  - reflexivity.
Defined.

(** X7 on the single-qubit circuit. *)
Lemma single_shot_or_single_qubit_never_returns_witness :
  length (all_qubits circ1) = 1
  /\ is_ok (outcome (execute_with_rci circ1
                       (ArgCallable (sample_bitstrings 2))
                       (ObsObservable observable1) (Some (identity 2))
                       default_p default_p 0))
     = false.
Proof.
  split; [reflexivity|].
  unfold execute_with_rci.
  apply (@single_shot_or_single_qubit_never_returns
           Circuit nat all_qubits nat draw nat measure_confusion_matrix
           correction_matrix Observable expectation_from_measurements
           circ1 (ArgCallable (sample_bitstrings 2))
           (ObsObservable observable1) (identity 2) default_p default_p 0 1
           {| result := [[true]; [true]]; qubit_indices := [0] |} []).
  - reflexivity.
  - right. reflexivity.
Defined.

(** X8 on the full-flip scenario with two shots. *)
Lemma correction_samples_once_per_shot_witness :
  correct (antidiagonal 4) 2 all_zero
  = Ok {| nd_cols := 4; nd_rows := [one_hot 4 3; one_hot 4 3] |}
  /\ trace (correct_result (antidiagonal 4) 2 all_zero 0)
     = [EvSample (one_hot 4 3) [0; 1]; EvSample (one_hot 4 3) [0; 1]]
  /\ length (trace (correct_result (antidiagonal 4) 2 all_zero 0))
     = shots all_zero.
Proof.
  split; [reflexivity|].
  apply (@correction_samples_once_per_shot
           Circuit nat nat draw (antidiagonal 4) 2 all_zero all_one
           {| nd_cols := 4; nd_rows := [one_hot 4 3; one_hot 4 3] |} 0 2
           (trace (correct_result (antidiagonal 4) 2 all_zero 0))).
  - reflexivity.
  - reflexivity.
Defined.

(** X9 on the 2-qubit circuit laid out on the line qubits 1 and 2. *)
Lemma out_of_range_qubit_index_raises_witness :
  exists msg,
    execute_with_rci circ (ArgCallable (shifted_executor 2))
      (ObsObservable observable) (Some (identity 4)) default_p default_p 0
    = (Err (IndexError msg), 1,
       [EvExecute circ; EvSample (one_hot 4 3) [1; 2]]).
Proof.
  unfold execute_with_rci.
  apply (@out_of_range_qubit_index_raises
           Circuit nat all_qubits nat draw nat measure_confusion_matrix
           correction_matrix Observable expectation_from_measurements
           circ (ArgCallable (shifted_executor 2)) (ObsObservable observable)
           (identity 4) default_p default_p 0 1
           {| result := [[true; true]; [true; true]];
              qubit_indices := [1; 2] |} [] [true; true] [[true; true]]).
  - reflexivity.
  - reflexivity.
  - repeat constructor.
  - reflexivity.
  - reflexivity.
  - apply Exists_cons_tl. apply Exists_cons_hd. apply le_n.
Defined.

(** X10 on a 3x4 matrix for the 2-qubit circuit. *)
Lemma rows_not_power_of_two_raise_at_sampling_witness :
  nd_shape three_by_four = (3, 4)
  /\ exists msg,
       execute_with_rci circ (ArgCallable (sample_bitstrings 2))
         (ObsObservable observable) (Some three_by_four) default_p default_p 0
       = (Err (ValueError msg), 1,
          [EvExecute circ; EvSample [0; 0; 1]%Q [0; 1]]).
Proof.
  split; [reflexivity|].
  unfold execute_with_rci.
  apply (@rows_not_power_of_two_raise_at_sampling
           Circuit nat all_qubits nat draw nat measure_confusion_matrix
           correction_matrix Observable expectation_from_measurements
           circ (ArgCallable (sample_bitstrings 2)) (ObsObservable observable)
           three_by_four default_p default_p 0 1
           {| result := [[true; true]; [true; true]];
              qubit_indices := [0; 1] |} [] [true; true] [[true; true]]).
  - reflexivity.
  - reflexivity.
  - repeat constructor.
  - reflexivity.
  - intros k. destruct k as [|[|k]]; [discriminate|discriminate|].
    change (nd_nrows three_by_four) with 3.
    rewrite !Nat.pow_succ_r'. pose proof (Nat.pow_nonzero 2 k). lia.
Defined.

(** X11 on the 2-qubit circuit with two shots. *)
Lemma identity_matrix_returns_unmitigated_value_witness :
  outcome (execute_with_rci circ (ArgCallable (sample_bitstrings 2))
             (ObsObservable observable) (Some (identity 4))
             default_p default_p 0)
  = outcome (raw_execute circ (ArgCallable (sample_bitstrings 2))
               (ObsObservable observable) 0).
Proof.
  unfold execute_with_rci, raw_execute.
  apply (@identity_matrix_returns_unmitigated_value
           Circuit nat all_qubits nat draw nat measure_confusion_matrix
           correction_matrix Observable expectation_from_measurements
           draw_basis_state circ (ArgCallable (sample_bitstrings 2))
           (ObsObservable observable) default_p default_p 0 1
           {| result := [[true; true]; [true; true]];
              qubit_indices := [0; 1] |} []).
  - reflexivity.
  - repeat constructor.
  - reflexivity.
  - apply le_n.
  - discriminate.
Defined.

(** X12 on the 2-qubit circuit with two shots: the executor returns [00]
    twice for the state [11]. *)
Lemma antidiagonal_matrix_undoes_full_flip_witness :
  outcome (execute_with_rci circ (ArgCallable (noisy_readout_executor 2))
             (ObsObservable observable) (Some (antidiagonal 4))
             default_p default_p 0)
  = expectation_from_measurements observable [all_one].
Proof.
  unfold execute_with_rci.
  apply (@antidiagonal_matrix_undoes_full_flip
           Circuit nat all_qubits nat draw nat measure_confusion_matrix
           correction_matrix Observable expectation_from_measurements
           draw_basis_state circ (ArgCallable (noisy_readout_executor 2))
           (ObsObservable observable) default_p default_p 0 1
           [[true; true]; [true; true]] []).
  - reflexivity.
  - repeat constructor.
  - apply le_n.
  - discriminate.
Defined.


(** X14 on the scenario of [test_rem_decorator] with two shots: the decorated
    full-flip executor returns [-2]. *)
Lemma decorated_executor_runs_execute_with_rci_witness :
  exists decorator,
    rci_decorator (ObsObservable observable) (Some (antidiagonal 4))
      default_p default_p
    = Ok decorator
    /\ fn_call (decorator (noisy_readout_executor 2)) circ 0
       = (Ok (ObjFloat (-2)), 3,
          [EvExecute circ;
           EvSample (one_hot 4 3) [0; 1]; EvSample (one_hot 4 3) [0; 1]]).
Proof.
  unfold rci_decorator.
  apply (@decorated_executor_runs_execute_with_rci
           Circuit nat all_qubits nat draw nat measure_confusion_matrix
           correction_matrix Observable expectation_from_measurements
           (ObsObservable observable) (Some (antidiagonal 4))
           default_p default_p (noisy_readout_executor 2) circ 0).
  reflexivity.
Defined.

(** X15 on a matrix with negative entries and two single-qubit shots. *)
Lemma correct_shape_witness :
  correct two_by_two 1 one_and_zero
  = Ok {| nd_cols := 2; nd_rows := [[-1; 3]; [2; -1]]%Q |}
  /\ nd_cols two_by_two = 2 ^ 1
  /\ nd_shape {| nd_cols := 2; nd_rows := [[-1; 3]; [2; -1]]%Q |}
     = (shots one_and_zero, nd_nrows two_by_two).
Proof.
  split; [reflexivity|].
  split.
  - apply (@correct_shape two_by_two 1 one_and_zero
             {| nd_cols := 2; nd_rows := [[-1; 3]; [2; -1]]%Q |}).
    reflexivity.
  - apply (@correct_shape two_by_two 1 one_and_zero
             {| nd_cols := 2; nd_rows := [[-1; 3]; [2; -1]]%Q |}).
    reflexivity.
Defined.
